(** * DCMA schedule-quality analyzer ([src/app.py], class [DCMAAnalyzer])

    A shallow embedding of the analyzer of the P6 CoPilot XER service, with
    the properties its specification states about it, and of the two POST
    endpoints that call it.

    Conventions of the embedding.

    - Python numbers.  The analyzer's outputs are Python [int]s (counts,
      thresholds, the literal fallbacks [0] and [100]) and [float]s (every
      value that went through a true division).  They are kept apart by the
      type [num].  A [float] is idealised as an exact rational: IEEE
      rounding of [/], [*] and [-] is not modelled, and [round(x, 2)] is
      round-half-to-even on the exact value.  Next to a tie the code, which
      rounds a double, can return the neighbouring hundredth; the
      properties that tie a score to its formula for every schedule place
      it within 0.005 of the exact value.
    - Exceptions.  A function that can raise returns [res A]; [Raise] carries
      the exception.  [ZeroDivisionError] comes from [/], [KeyError] from
      [d[k]] on a dict; [Unmodelled] is not a Python exception, it marks
      the one place where the rational idealisation has no answer (the
      [repr] of a [float], which no run of the analyzer reaches).
    - Dicts.  A dict that the code reads by key ([m.get('score', 0)],
      [metrics['logic']['score']], the result of [analyze]) is an association
      list in insertion order.  The recommendation and summary dict literals,
      whose keys are fixed, are records.
    - The clock.  [datetime.utcnow().isoformat()] is an argument of
      [analyze]. *)

From Stdlib Require Import ZArith QArith Qround Qabs Qminmax List String Ascii Bool Lia Lqa.
From Stdlib Require Import DecimalString Permutation.
Import ListNotations.

Open Scope string_scope.
Open Scope Z_scope.

(* ================================================================== *)
(** ** Python fragments used by the analyzer *)

Module Py.

Inductive exn : Type :=
| ZeroDivisionError
| KeyError (key : string)
| Unmodelled.

Inductive res (A : Type) : Type :=
| Ok (a : A)
| Raise (e : exn).

Arguments Ok {A} a.
Arguments Raise {A} e.

Definition bind {A B : Type} (c : res A) (k : A -> res B) : res B :=
  match c with
  | Ok a => k a
  | Raise e => Raise e
  end.

(** [int] and [float]. *)
Inductive num : Type :=
| Int (z : Z)
| Float (q : Q).

Definition num_val (x : num) : Q :=
  match x with
  | Int z => inject_Z z
  | Float q => q
  end.

Definition Qlt_bool (x y : Q) : bool := negb (Qle_bool y x).

(** [a < b] and [a > b] on numbers. *)
Definition lt (a b : num) : bool := Qlt_bool (num_val a) (num_val b).
Definition gt (a b : num) : bool := Qlt_bool (num_val b) (num_val a).

(** [a + b], [a - b], [a * b]: [int] when both operands are, else [float]. *)
Definition add (a b : num) : num :=
  match a, b with
  | Int x, Int y => Int (x + y)
  | _, _ => Float (num_val a + num_val b)
  end.

Definition sub (a b : num) : num :=
  match a, b with
  | Int x, Int y => Int (x - y)
  | _, _ => Float (num_val a - num_val b)
  end.

Definition mul (a b : num) : num :=
  match a, b with
  | Int x, Int y => Int (x * y)
  | _, _ => Float (num_val a * num_val b)
  end.

(** [a / b]: true division, always a [float]; raises on a zero divisor. *)
Definition truediv (a b : num) : res num :=
  if Qeq_bool (num_val b) 0 then Raise ZeroDivisionError
  else Ok (Float (num_val a / num_val b)).

(** [max(a, b)]: the first of the largest arguments. *)
Definition max (a b : num) : num := if lt a b then b else a.

(** Round half to even, to an integer. *)
Definition round_half_even (x : Q) : Z :=
  let f := Qfloor x in
  match ((x - inject_Z f) ?= (1 # 2))%Q with
  | Lt => f
  | Gt => f + 1
  | Eq => if Z.even f then f else f + 1
  end.

(** [round(x, 2)]: an [int] is returned as it is, a [float] is rounded to the
    nearest multiple of 1/100. *)
Definition round2 (x : num) : num :=
  match x with
  | Int z => Int z
  | Float q => Float (inject_Z (round_half_even (q * 100)) / 100)
  end.

(** [sum(xs)]: left to right from the [int] 0. *)
Definition sum (xs : list num) : num := fold_left add xs (Int 0).

(** [len(xs)]. *)
Definition len {A : Type} (xs : list A) : Z := Z.of_nat (List.length xs).

(** Truth values of the objects the analyzer tests. *)
Definition truthy_num (x : option Q) : bool :=
  match x with
  | None => false
  | Some q => negb (Qeq_bool q 0)
  end.

Definition truthy_str (x : option string) : bool :=
  match x with
  | None => false
  | Some s => negb (String.eqb s "")
  end.

Definition truthy_list {A : Type} (xs : list A) : bool :=
  match xs with
  | [] => false
  | _ :: _ => true
  end.

(** A [datetime] is always true; only [None] is false. *)
Definition truthy_date (x : option Z) : bool :=
  match x with
  | None => false
  | Some _ => true
  end.

(** Dicts as association lists in insertion order. *)
Definition dict (V : Type) : Type := list (string * V).

Fixpoint lookup {V : Type} (k : string) (d : dict V) : option V :=
  match d with
  | [] => None
  | (k', v) :: d' => if String.eqb k k' then Some v else lookup k d'
  end.

(** [d[k]]. *)
Definition getitem {V : Type} (d : dict V) (k : string) : res V :=
  match lookup k d with
  | Some v => Ok v
  | None => Raise (KeyError k)
  end.

(** [d.get(k, default)]. *)
Definition get {V : Type} (d : dict V) (k : string) (default : V) : V :=
  match lookup k d with
  | Some v => v
  | None => default
  end.

(** [d.values()]. *)
Definition values {V : Type} (d : dict V) : list V := map snd d.

(** [k in d]. *)
Definition contains {V : Type} (d : dict V) (k : string) : bool :=
  match lookup k d with
  | Some _ => true
  | None => false
  end.

(** [str(z)] of an [int]. *)
Definition str_int (z : Z) : string := NilZero.string_of_int (Z.to_int z).

(** [f"{x}"].  An [int] prints in decimal.  The [repr] of a [float] (the
    shortest decimal that reads back as the same double) has no counterpart
    on exact rationals; the analyzer only ever interpolates counts and
    thresholds, which are [int]s, and the model raises on a [float]. *)
Definition format (x : num) : res string :=
  match x with
  | Int z => Ok (str_int z)
  | Float _ => Raise Unmodelled
  end.

(** [f"{x:.1f}"]: sign, integer part, one decimal, half to even. *)
Definition format_1f (x : num) : string :=
  let q := num_val x in
  let t := round_half_even (Qabs q * 10) in
  ((if Qlt_bool q 0 then "-" else "")
    ++ str_int (t / 10) ++ "." ++ str_int (t mod 10))%string.

End Py.

Import Py.

Notation "x <- c ;; k" := (Py.bind c (fun x => k))
  (at level 61, c at next level, right associativity).

(* ================================================================== *)
(** ** The schedule model

    What the XER reader hands to the analyzer: projects, their activities
    and the relationships of each activity.  Only the attributes the
    analyzer reads are kept.  A numeric attribute is a rational or [None];
    a date is an instant on the time line or [None]. *)

Module Xer.

Record Relationship : Type := {
  link : string;
  lag : option Q
}.

Record Activity : Type := {
  task_type : string;
  predecessors : list Relationship;
  successors : list Relationship;
  total_float : option Q;
  duration : option Q;
  constraint_type : option string;
  start : option Z;
  finish : option Z;
  resources : option (list string)
}.

Record Project : Type := {
  activities : list Activity
}.

Record Reader : Type := {
  projects : list Project
}.

End Xer.

Import Xer.

(* ================================================================== *)
(** ** The analyzer *)

(** The dict literal appended by each recommendation rule. *)
Record Recommendation : Type := {
  category : string;
  priority : string;
  message : string;
  action : string
}.

(** The ['summary'] dict literal of [analyze]. *)
Record Summary : Type := {
  totalActivities : Z;
  criticalIssues : Z;
  analyzedAt : string
}.

(** The values stored in the dict [analyze] returns. *)
Inductive value : Type :=
| VBool (b : bool)
| VStr (s : string)
| VNum (n : num)
| VMetrics (m : dict (dict num))
| VRecommendations (rs : list Recommendation)
| VSummary (s : Summary).

(** [x and p(x)] as a condition, for a numeric attribute [x]: false when
    [x] is [None] or zero, else [p x]. *)
Definition and_num (x : option Q) (p : Q -> bool) : bool :=
  match x with
  | None => false
  | Some q => truthy_num (Some q) && p q
  end.

(** [sum(...)] of [int]s. *)
Definition sum_int (xs : list Z) : Z := fold_left Z.add xs 0.

Module DCMAAnalyzer.

Record t : Type := {
  xer : Reader;
  activities : list Activity
}.

(** [__init__]: the activities of all projects, in order. *)
Definition __init__ (xer : Reader) : t :=
  {| xer := xer;
     activities :=
       fold_left (fun acc project => (acc ++ Xer.activities project)%list)
                 (projects xer) [] |}.

Definition _analyze_missing_logic (self : t) : res (dict num) :=
  let regular_activities :=
    filter (fun a =>
              negb (existsb (String.eqb (task_type a)) ["TT_FinMile"; "TT_Mile"]))
           (activities self) in
  let without_pred :=
    len (filter (fun a => negb (truthy_list (predecessors a))) regular_activities) in
  let without_succ :=
    len (filter (fun a => negb (truthy_list (successors a))) regular_activities) in
  let total := len regular_activities in
  score <- (if total >? 0
            then r <- truediv (Int (without_pred + without_succ)) (Int total) ;;
                 Ok (max (Int 0) (sub (Int 100) (mul r (Int 100))))
            else Ok (Int 0)) ;;
  Ok [("score", round2 score);
      ("tasksWithoutPredecessors", Int without_pred);
      ("tasksWithoutSuccessors", Int without_succ);
      ("totalTasks", Int total)].

Definition _analyze_high_float (self : t) : res (dict num) :=
  let threshold_days := 44 in
  let high_float_activities :=
    filter (fun a =>
              and_num (total_float a)
                      (fun x => Qlt_bool (inject_Z threshold_days) x))
           (activities self) in
  let total := len (activities self) in
  score <- (if total >? 0
            then r <- truediv (Int (len high_float_activities)) (Int total) ;;
                 Ok (max (Int 0) (sub (Int 100) (mul r (Int 100))))
            else Ok (Int 0)) ;;
  Ok [("score", round2 score);
      ("highFloatTasks", Int (len high_float_activities));
      ("threshold", Int threshold_days);
      ("totalTasks", Int total)].

Definition _analyze_negative_float (self : t) : res (dict num) :=
  let neg_float_activities :=
    filter (fun a => and_num (total_float a) (fun x => Qlt_bool x 0))
           (activities self) in
  let total := len (activities self) in
  score <- (if len neg_float_activities =? 0
            then Ok (Int 100)
            else r <- truediv (Int (len neg_float_activities)) (Int total) ;;
                 Ok (max (Int 0) (sub (Int 100) (mul r (Int 200))))) ;;
  Ok [("score", round2 score);
      ("negativeFloatTasks", Int (len neg_float_activities));
      ("totalTasks", Int total)].

Definition _analyze_high_duration (self : t) : res (dict num) :=
  let threshold_days := 44 in
  let high_dur_activities :=
    filter (fun a =>
              and_num (duration a)
                      (fun x => Qlt_bool (inject_Z threshold_days) x))
           (activities self) in
  let total := len (activities self) in
  score <- (if total >? 0
            then r <- truediv (Int (len high_dur_activities)) (Int total) ;;
                 Ok (max (Int 0) (sub (Int 100) (mul r (Int 100))))
            else Ok (Int 0)) ;;
  Ok [("score", round2 score);
      ("highDurationTasks", Int (len high_dur_activities));
      ("threshold", Int threshold_days);
      ("totalTasks", Int total)].

Definition _analyze_hard_constraints (self : t) : res (dict num) :=
  let constrained_activities :=
    filter (fun a =>
              truthy_str (constraint_type a)
              && match constraint_type a with
                 | Some c => negb (String.eqb c "CS_ASAP")
                 | None => true
                 end)
           (activities self) in
  let total := len (activities self) in
  score <- (if total >? 0
            then r <- truediv (Int (len constrained_activities)) (Int total) ;;
                 Ok (max (Int 0) (sub (Int 100) (mul r (Int 100))))
            else Ok (Int 0)) ;;
  Ok [("score", round2 score);
      ("constrainedTasks", Int (len constrained_activities));
      ("totalTasks", Int total)].

Definition _analyze_leads (self : t) : res (dict num) :=
  let lead_count :=
    fold_left
      (fun lead_count activity =>
         fold_left
           (fun lead_count rel =>
              if and_num (lag rel) (fun x => Qlt_bool x 0)
              then lead_count + 1 else lead_count)
           (predecessors activity) lead_count)
      (activities self) 0 in
  let total_rels :=
    sum_int (map (fun a => len (predecessors a)) (activities self)) in
  score <- (if total_rels >? 0
            then r <- truediv (Int lead_count) (Int total_rels) ;;
                 Ok (max (Int 0) (sub (Int 100) (mul r (Int 100))))
            else Ok (Int 100)) ;;
  Ok [("score", round2 score);
      ("leadsFound", Int lead_count);
      ("totalRelationships", Int total_rels)].

Definition _analyze_lags (self : t) : res (dict num) :=
  let excessive_lag_threshold := 20 in
  let lag_count :=
    fold_left
      (fun lag_count activity =>
         fold_left
           (fun lag_count rel =>
              if and_num (lag rel)
                         (fun x => Qlt_bool (inject_Z excessive_lag_threshold) x)
              then lag_count + 1 else lag_count)
           (predecessors activity) lag_count)
      (activities self) 0 in
  let total_rels :=
    sum_int (map (fun a => len (predecessors a)) (activities self)) in
  score <- (if total_rels >? 0
            then r <- truediv (Int lag_count) (Int total_rels) ;;
                 Ok (max (Int 0) (sub (Int 100) (mul r (Int 100))))
            else Ok (Int 100)) ;;
  Ok [("score", round2 score);
      ("excessiveLags", Int lag_count);
      ("threshold", Int excessive_lag_threshold)].

(** The two counters of the loop are threaded as a pair
    [(non_fs_count, total_rels)]. *)
Definition _analyze_relationship_types (self : t) : res (dict num) :=
  let '(non_fs_count, total_rels) :=
    fold_left
      (fun st activity =>
         fold_left
           (fun '(non_fs_count, total_rels) rel =>
              let total_rels := total_rels + 1 in
              if negb (String.eqb (link rel) "PR_FS")
              then (non_fs_count + 1, total_rels)
              else (non_fs_count, total_rels))
           (predecessors activity) st)
      (activities self) (0, 0) in
  score <- (if total_rels >? 0
            then r <- truediv (Int non_fs_count) (Int total_rels) ;;
                 Ok (max (Int 0) (sub (Int 100) (mul r (Int 50))))
            else Ok (Int 100)) ;;
  Ok [("score", round2 score);
      ("nonFSRelationships", Int non_fs_count);
      ("totalRelationships", Int total_rels)].

Definition _analyze_invalid_dates (self : t) : res (dict num) :=
  let invalid_dates :=
    fold_left
      (fun invalid_dates activity =>
         if truthy_date (start activity) && truthy_date (finish activity)
         then match start activity, finish activity with
              | Some s, Some f =>
                  if s >? f then invalid_dates + 1 else invalid_dates
              | _, _ => invalid_dates
              end
         else invalid_dates)
      (activities self) 0 in
  let total := len (activities self) in
  score <- (if invalid_dates =? 0
            then Ok (Int 100)
            else r <- truediv (Int invalid_dates) (Int total) ;;
                 Ok (max (Int 0) (sub (Int 100) (mul r (Int 200))))) ;;
  Ok [("score", round2 score);
      ("invalidDates", Int invalid_dates);
      ("totalTasks", Int total)].

Definition _analyze_resources (self : t) : res (dict num) :=
  let activities_with_resources :=
    len (filter (fun a =>
                   match resources a with
                   | Some rs => truthy_list rs && (len rs >? 0)
                   | None => false
                   end)
                (activities self)) in
  let total := len (activities self) in
  resource_rate <- (if total >? 0
                    then r <- truediv (Int activities_with_resources) (Int total) ;;
                         Ok (mul r (Int 100))
                    else Ok (Int 0)) ;;
  Ok [("score", round2 resource_rate);
      ("tasksWithResources", Int activities_with_resources);
      ("totalTasks", Int total);
      ("resourceAssignmentRate", round2 resource_rate)].

(** [metrics[k1][k2]]. *)
Definition getitem2 (metrics : dict (dict num)) (k1 k2 : string) : res num :=
  m <- getitem metrics k1 ;; getitem m k2.

Definition _generate_recommendations (self : t) (metrics : dict (dict num))
  : res (list Recommendation) :=
  let recommendations := [] in
  s <- getitem2 metrics "logic" "score" ;;
  recommendations <-
    (if lt s (Int 80)
     then p <- getitem2 metrics "logic" "tasksWithoutPredecessors" ;;
          q <- getitem2 metrics "logic" "tasksWithoutSuccessors" ;;
          n <- format (add p q) ;;
          Ok (recommendations ++
              [{| category := "Logic";
                  priority := "high";
                  message := n ++ " activities missing logic relationships";
                  action := "Add predecessor and successor relationships to all activities" |}])%list
     else Ok recommendations) ;;
  c <- getitem2 metrics "negativeFloat" "negativeFloatTasks" ;;
  recommendations <-
    (if gt c (Int 0)
     then c' <- getitem2 metrics "negativeFloat" "negativeFloatTasks" ;;
          n <- format c' ;;
          Ok (recommendations ++
              [{| category := "Schedule";
                  priority := "high";
                  message := n ++ " activities have negative float";
                  action := "Review and adjust schedule to resolve negative float" |}])%list
     else Ok recommendations) ;;
  s <- getitem2 metrics "highFloat" "score" ;;
  recommendations <-
    (if lt s (Int 70)
     then c <- getitem2 metrics "highFloat" "highFloatTasks" ;;
          n <- format c ;;
          th <- getitem2 metrics "highFloat" "threshold" ;;
          d <- format th ;;
          Ok (recommendations ++
              [{| category := "Float";
                  priority := "medium";
                  message := n ++ " activities have excessive float (>" ++ d ++ " days)";
                  action := "Review task dependencies and network logic" |}])%list
     else Ok recommendations) ;;
  s <- getitem2 metrics "highDuration" "score" ;;
  recommendations <-
    (if lt s (Int 70)
     then c <- getitem2 metrics "highDuration" "highDurationTasks" ;;
          n <- format c ;;
          th <- getitem2 metrics "highDuration" "threshold" ;;
          d <- format th ;;
          Ok (recommendations ++
              [{| category := "Duration";
                  priority := "medium";
                  message := n ++ " activities exceed " ++ d ++ " days";
                  action := "Break down long-duration activities into smaller tasks" |}])%list
     else Ok recommendations) ;;
  s <- getitem2 metrics "hardConstraints" "score" ;;
  recommendations <-
    (if lt s (Int 85)
     then c <- getitem2 metrics "hardConstraints" "constrainedTasks" ;;
          n <- format c ;;
          Ok (recommendations ++
              [{| category := "Constraints";
                  priority := "medium";
                  message := n ++ " activities have hard constraints";
                  action := "Review and minimize use of hard constraints" |}])%list
     else Ok recommendations) ;;
  s <- getitem2 metrics "resources" "score" ;;
  recommendations <-
    (if lt s (Int 50)
     then rate <- getitem2 metrics "resources" "resourceAssignmentRate" ;;
          Ok (recommendations ++
              [{| category := "Resources";
                  priority := "low";
                  message := "Only " ++ format_1f rate
                             ++ "% of activities have resource assignments";
                  action := "Improve resource loading and assignment" |}])%list
     else Ok recommendations) ;;
  Ok recommendations.

Definition analyze (self : t) (utcnow : string) : res (dict value) :=
  if negb (truthy_list (activities self))
  then Ok [("error", VBool true);
           ("message", VStr "No activities found in XER file")]
  else
    logic <- _analyze_missing_logic self ;;
    leads <- _analyze_leads self ;;
    lags <- _analyze_lags self ;;
    relationshipTypes <- _analyze_relationship_types self ;;
    hardConstraints <- _analyze_hard_constraints self ;;
    highFloat <- _analyze_high_float self ;;
    negativeFloat <- _analyze_negative_float self ;;
    highDuration <- _analyze_high_duration self ;;
    invalidDates <- _analyze_invalid_dates self ;;
    resources <- _analyze_resources self ;;
    let metrics :=
      [("logic", logic);
       ("leads", leads);
       ("lags", lags);
       ("relationshipTypes", relationshipTypes);
       ("hardConstraints", hardConstraints);
       ("highFloat", highFloat);
       ("negativeFloat", negativeFloat);
       ("highDuration", highDuration);
       ("invalidDates", invalidDates);
       ("resources", resources)] in
    let scores := map (fun m => get m "score" (Int 0)) (values metrics) in
    overall_score <- (if truthy_list scores
                      then truediv (sum scores) (Int (len scores))
                      else Ok (Int 0)) ;;
    recommendations <- _generate_recommendations self metrics ;;
    Ok [("metrics", VMetrics metrics);
        ("overallScore", VNum overall_score);
        ("recommendations", VRecommendations recommendations);
        ("summary",
         VSummary
           {| totalActivities := len (activities self);
              criticalIssues :=
                len (filter (fun r => String.eqb (priority r) "high")
                            recommendations);
              analyzedAt := utcnow |})].

End DCMAAnalyzer.

(* ================================================================== *)
(** ** Vocabulary of the properties

    The classes of activities and relationships the metrics count, the
    scores before rounding, and the readings of results that the statements
    below use. *)

Open Scope list_scope.

(** The test of [_analyze_missing_logic] for the two milestone types. *)
Definition is_milestone (a : Activity) : bool :=
  existsb (String.eqb (task_type a)) ["TT_FinMile"; "TT_Mile"].

(** The activities Missing Logic looks at. *)
Definition regular_activities (acts : list Activity) : list Activity :=
  filter (fun a => negb (is_milestone a)) acts.

(** [not a.predecessors] and [not a.successors]. *)
Definition lacks_predecessors (a : Activity) : bool :=
  negb (truthy_list (predecessors a)).

Definition lacks_successors (a : Activity) : bool :=
  negb (truthy_list (successors a)).

(** [a.total_float and a.total_float > 44]. *)
Definition has_high_float (a : Activity) : bool :=
  and_num (total_float a) (fun x => Qlt_bool 44 x).

(** [a.total_float and a.total_float < 0]. *)
Definition has_negative_float (a : Activity) : bool :=
  and_num (total_float a) (fun x => Qlt_bool x 0).

(** [a.duration and a.duration > 44]. *)
Definition has_high_duration (a : Activity) : bool :=
  and_num (duration a) (fun x => Qlt_bool 44 x).

(** Both dates present and the start after the finish. *)
Definition has_invalid_dates (a : Activity) : bool :=
  match start a, finish a with
  | Some s, Some f => s >? f
  | _, _ => false
  end.

(** [activity.start and activity.finish]. *)
Definition has_both_dates (a : Activity) : bool :=
  truthy_date (start a) && truthy_date (finish a).

(** The predecessor relationships of all activities, in order. *)
Definition relationships (acts : list Activity) : list Relationship :=
  flat_map predecessors acts.

(** [rel.lag and rel.lag < 0], [rel.lag and rel.lag > 20] and
    [rel.link != 'PR_FS']. *)
Definition is_lead (r : Relationship) : bool :=
  and_num (lag r) (fun x => Qlt_bool x 0).

Definition is_excessive_lag (r : Relationship) : bool :=
  and_num (lag r) (fun x => Qlt_bool 20 x).

Definition is_non_fs (r : Relationship) : bool :=
  negb (String.eqb (link r) "PR_FS").

(** [a.constraint_type and a.constraint_type != 'CS_ASAP']. *)
Definition has_hard_constraint (a : Activity) : bool :=
  truthy_str (constraint_type a)
  && match constraint_type a with
     | Some c => negb (String.eqb c "CS_ASAP")
     | None => true
     end.

(** [a.resources and len(a.resources) > 0]. *)
Definition has_resources (a : Activity) : bool :=
  match resources a with
  | Some rs => truthy_list rs && (len rs >? 0)
  | None => false
  end.

(** [max(0, 100 - (n / total * w))] once the division has been made. *)
Definition penalty_score (n total w : Z) : num :=
  max (Int 0) (sub (Int 100) (mul (Float (inject_Z n / inject_Z total)) (Int w))).

(** The score of each metric before [round(., 2)], as a function of the
    activity list. *)
Definition missing_logic_raw (acts : list Activity) : num :=
  let reg := regular_activities acts in
  if len reg >? 0
  then penalty_score (len (filter lacks_predecessors reg)
                      + len (filter lacks_successors reg)) (len reg) 100
  else Int 0.

Definition high_float_raw (acts : list Activity) : num :=
  if len acts >? 0
  then penalty_score (len (filter has_high_float acts)) (len acts) 100
  else Int 0.

Definition negative_float_raw (acts : list Activity) : num :=
  if len (filter has_negative_float acts) =? 0
  then Int 100
  else penalty_score (len (filter has_negative_float acts)) (len acts) 200.

Definition high_duration_raw (acts : list Activity) : num :=
  if len acts >? 0
  then penalty_score (len (filter has_high_duration acts)) (len acts) 100
  else Int 0.

Definition hard_constraints_raw (acts : list Activity) : num :=
  if len acts >? 0
  then penalty_score (len (filter has_hard_constraint acts)) (len acts) 100
  else Int 0.

Definition leads_raw (acts : list Activity) : num :=
  if len (relationships acts) >? 0
  then penalty_score (len (filter is_lead (relationships acts)))
                     (len (relationships acts)) 100
  else Int 100.

Definition lags_raw (acts : list Activity) : num :=
  if len (relationships acts) >? 0
  then penalty_score (len (filter is_excessive_lag (relationships acts)))
                     (len (relationships acts)) 100
  else Int 100.

Definition relationship_types_raw (acts : list Activity) : num :=
  if len (relationships acts) >? 0
  then penalty_score (len (filter is_non_fs (relationships acts)))
                     (len (relationships acts)) 50
  else Int 100.

Definition invalid_dates_raw (acts : list Activity) : num :=
  if len (filter has_invalid_dates acts) =? 0
  then Int 100
  else penalty_score (len (filter has_invalid_dates acts)) (len acts) 200.

Definition resources_raw (acts : list Activity) : num :=
  if len acts >? 0
  then mul (Float (inject_Z (len (filter has_resources acts))
                   / inject_Z (len acts))) (Int 100)
  else Int 0.

(** The ['score'] (or any other entry) of a metric result; [None] when the
    method raised or the key is missing. *)
Definition field (r : res (dict num)) (k : string) : option num :=
  match r with
  | Ok d => lookup k d
  | Raise _ => None
  end.

Definition score_in_range (r : res (dict num)) : Prop :=
  exists s, field r "score" = Some s /\ (0 <= num_val s <= 100)%Q.

(** An analyzer built, as [__init__] does, from a reader with one project. *)
Definition analyzer_of (acts : list Activity) : DCMAAnalyzer.t :=
  DCMAAnalyzer.__init__ {| projects := [{| Xer.activities := acts |}] |}.

(** The two milestone types of the schedule model. *)
Definition Milestone (a : Activity) : Prop :=
  task_type a = "TT_Mile" \/ task_type a = "TT_FinMile".

(** The rule table of the specification: a rule reads one entry of one
    metric and fires when the entry passes its test. *)
Definition rule_fires (metrics : dict (dict num)) (k1 k2 : string)
           (test : num -> bool) : bool :=
  match DCMAAnalyzer.getitem2 metrics k1 k2 with
  | Ok v => test v
  | Raise _ => false
  end.

(** Category and priority of the rules that fire, in the order of the
    table. *)
Definition rule_table_headings (metrics : dict (dict num))
  : list (string * string) :=
  (if rule_fires metrics "logic" "score" (fun s => lt s (Int 80))
   then [("Logic", "high")] else [])
  ++ (if rule_fires metrics "negativeFloat" "negativeFloatTasks"
                    (fun c => gt c (Int 0))
      then [("Schedule", "high")] else [])
  ++ (if rule_fires metrics "highFloat" "score" (fun s => lt s (Int 70))
      then [("Float", "medium")] else [])
  ++ (if rule_fires metrics "highDuration" "score" (fun s => lt s (Int 70))
      then [("Duration", "medium")] else [])
  ++ (if rule_fires metrics "hardConstraints" "score" (fun s => lt s (Int 85))
      then [("Constraints", "medium")] else [])
  ++ (if rule_fires metrics "resources" "score" (fun s => lt s (Int 50))
      then [("Resources", "low")] else []).

(** The metrics the generator reads. *)
Definition used_metrics : list string :=
  ["logic"; "negativeFloat"; "highFloat"; "highDuration"; "hardConstraints";
   "resources"].

(** The ['metrics'] mapping built by [analyze], in closed form. *)
Definition metrics_of (acts : list Activity) : dict (dict num) :=
  [("logic",
    [("score", round2 (missing_logic_raw acts));
     ("tasksWithoutPredecessors",
      Int (len (filter lacks_predecessors (regular_activities acts))));
     ("tasksWithoutSuccessors",
      Int (len (filter lacks_successors (regular_activities acts))));
     ("totalTasks", Int (len (regular_activities acts)))]);
   ("leads",
    [("score", round2 (leads_raw acts));
     ("leadsFound", Int (len (filter is_lead (relationships acts))));
     ("totalRelationships", Int (len (relationships acts)))]);
   ("lags",
    [("score", round2 (lags_raw acts));
     ("excessiveLags", Int (len (filter is_excessive_lag (relationships acts))));
     ("threshold", Int 20)]);
   ("relationshipTypes",
    [("score", round2 (relationship_types_raw acts));
     ("nonFSRelationships", Int (len (filter is_non_fs (relationships acts))));
     ("totalRelationships", Int (len (relationships acts)))]);
   ("hardConstraints",
    [("score", round2 (hard_constraints_raw acts));
     ("constrainedTasks", Int (len (filter has_hard_constraint acts)));
     ("totalTasks", Int (len acts))]);
   ("highFloat",
    [("score", round2 (high_float_raw acts));
     ("highFloatTasks", Int (len (filter has_high_float acts)));
     ("threshold", Int 44);
     ("totalTasks", Int (len acts))]);
   ("negativeFloat",
    [("score", round2 (negative_float_raw acts));
     ("negativeFloatTasks", Int (len (filter has_negative_float acts)));
     ("totalTasks", Int (len acts))]);
   ("highDuration",
    [("score", round2 (high_duration_raw acts));
     ("highDurationTasks", Int (len (filter has_high_duration acts)));
     ("threshold", Int 44);
     ("totalTasks", Int (len acts))]);
   ("invalidDates",
    [("score", round2 (invalid_dates_raw acts));
     ("invalidDates", Int (len (filter has_invalid_dates acts)));
     ("totalTasks", Int (len acts))]);
   ("resources",
    [("score", round2 (resources_raw acts));
     ("tasksWithResources", Int (len (filter has_resources acts)));
     ("totalTasks", Int (len acts));
     ("resourceAssignmentRate", round2 (resources_raw acts))])].

(** The ten scores, in the order of the mapping. *)
Definition scores_of (acts : list Activity) : list num :=
  map (fun m => get m "score" (Int 0)) (values (metrics_of acts)).

(** The sum of a list of rationals. *)
Definition Qsum (xs : list Q) : Q := fold_right Qplus 0%Q xs.

(** The part of an [analyze] result that holds the overall score. *)
Definition overall_score (r : res (dict value)) : option num :=
  match r with
  | Ok d => match lookup "overallScore" d with
            | Some (VNum n) => Some n
            | _ => None
            end
  | Raise _ => None
  end.

(** A number with at most two decimal places. *)
Definition two_decimals (q : Q) : Prop :=
  exists k : Z, (q == inject_Z k / 100)%Q.

(** The Invalid Dates score as the table of the specification words it:
    the total is the number of activities with both dates present. *)
Definition invalid_dates_score_over_included (acts : list Activity) : Q :=
  let included := filter has_both_dates acts in
  let numerator := len (filter has_invalid_dates included) in
  let total := len included in
  if numerator =? 0 then 100%Q
  else Qmax 0 (100 - inject_Z numerator / inject_Z total * 200)%Q.

(** The ten metric methods, in the order in which [analyze] calls them. *)
Definition metric_methods : list (DCMAAnalyzer.t -> res (dict num)) :=
  [DCMAAnalyzer._analyze_missing_logic; DCMAAnalyzer._analyze_leads;
   DCMAAnalyzer._analyze_lags; DCMAAnalyzer._analyze_relationship_types;
   DCMAAnalyzer._analyze_hard_constraints; DCMAAnalyzer._analyze_high_float;
   DCMAAnalyzer._analyze_negative_float; DCMAAnalyzer._analyze_high_duration;
   DCMAAnalyzer._analyze_invalid_dates; DCMAAnalyzer._analyze_resources].

(** Their results on one analyzer. *)
Definition metric_results (self : DCMAAnalyzer.t) : list (res (dict num)) :=
  map (fun m => m self) metric_methods.

(** The counts the ten metrics are computed from. *)
Definition counts_of (acts : list Activity) : list Z :=
  [len acts;
   len (regular_activities acts);
   len (filter lacks_predecessors (regular_activities acts));
   len (filter lacks_successors (regular_activities acts));
   len (relationships acts);
   len (filter is_lead (relationships acts));
   len (filter is_excessive_lag (relationships acts));
   len (filter is_non_fs (relationships acts));
   len (filter has_hard_constraint acts);
   len (filter has_high_float acts);
   len (filter has_negative_float acts);
   len (filter has_high_duration acts);
   len (filter has_invalid_dates acts);
   len (filter has_resources acts)].

(** The recommendations and the summary held by an [analyze] result. *)
Definition recommendations_of (r : res (dict value))
  : option (list Recommendation) :=
  match r with
  | Ok d => match lookup "recommendations" d with
            | Some (VRecommendations rs) => Some rs
            | _ => None
            end
  | Raise _ => None
  end.

Definition summary_of (r : res (dict value)) : option Summary :=
  match r with
  | Ok d => match lookup "summary" d with
            | Some (VSummary s) => Some s
            | _ => None
            end
  | Raise _ => None
  end.

(** Both methods return and the score of the first is at most that of the
    second. *)
Definition score_le (r r' : res (dict num)) : Prop :=
  exists s s', field r "score" = Some s /\ field r' "score" = Some s'
               /\ (num_val s <= num_val s')%Q.

(** A schedule in which every numeric attribute equal to zero (total float,
    duration, lag) is replaced by [None]. *)
Definition drop_zero (x : option Q) : option Q :=
  match x with
  | Some q => if Qeq_bool q 0 then None else Some q
  | None => None
  end.

Definition zero_lag_as_absent (r : Relationship) : Relationship :=
  {| link := link r; lag := drop_zero (lag r) |}.

Definition zero_as_absent (a : Activity) : Activity :=
  {| task_type := task_type a;
     predecessors := map zero_lag_as_absent (predecessors a);
     successors := map zero_lag_as_absent (successors a);
     total_float := drop_zero (total_float a);
     duration := drop_zero (duration a);
     constraint_type := constraint_type a;
     start := start a;
     finish := finish a;
     resources := resources a |}.

(** An activity with another task type. *)
Definition with_task_type (t : string) (a : Activity) : Activity :=
  {| task_type := t;
     predecessors := predecessors a;
     successors := successors a;
     total_float := total_float a;
     duration := duration a;
     constraint_type := constraint_type a;
     start := start a;
     finish := finish a;
     resources := resources a |}.

(* ================================================================== *)
(** ** Sample schedules *)

(** Sample data for the worked cases. *)
Definition fs_link : Relationship := {| link := "PR_FS"; lag := None |}.
Definition ss_link : Relationship := {| link := "PR_SS"; lag := None |}.

(** A task tied on both sides, with no optional attribute set. *)
Definition tied_task : Activity :=
  {| task_type := "TT_Task"; predecessors := [fs_link]; successors := [fs_link];
     total_float := None; duration := None; constraint_type := None;
     start := None; finish := None; resources := None |}.

(** A task with a successor but no predecessor. *)
Definition open_start_task : Activity :=
  {| task_type := "TT_Task"; predecessors := []; successors := [fs_link];
     total_float := None; duration := None; constraint_type := None;
     start := None; finish := None; resources := None |}.

(** A start milestone with no relationship at all. *)
Definition lone_milestone : Activity :=
  {| task_type := "TT_Mile"; predecessors := []; successors := [];
     total_float := None; duration := None; constraint_type := None;
     start := None; finish := None; resources := None |}.

(** A task without dates or relationships. *)
Definition undated_task : Activity :=
  {| task_type := "TT_Task"; predecessors := []; successors := [];
     total_float := None; duration := None; constraint_type := None;
     start := None; finish := None; resources := None |}.

(** A task that starts after it finishes. *)
Definition backwards_task : Activity :=
  {| task_type := "TT_Task"; predecessors := []; successors := [];
     total_float := None; duration := None; constraint_type := None;
     start := Some 5; finish := Some 3; resources := None |}.

(** Tasks with a total float of 50 days and of -5 days. *)
Definition slack_task : Activity :=
  {| task_type := "TT_Task"; predecessors := [fs_link]; successors := [fs_link];
     total_float := Some 50%Q; duration := None; constraint_type := None;
     start := None; finish := None; resources := None |}.

Definition late_task : Activity :=
  {| task_type := "TT_Task"; predecessors := [fs_link]; successors := [fs_link];
     total_float := Some (-5)%Q; duration := None; constraint_type := None;
     start := None; finish := None; resources := None |}.

(** A task with a Finish-Start and a Start-Start predecessor. *)
Definition mixed_links_task : Activity :=
  {| task_type := "TT_Task"; predecessors := [fs_link; ss_link];
     successors := [fs_link];
     total_float := None; duration := None; constraint_type := None;
     start := None; finish := None; resources := None |}.

(** Ten activities: six tied tasks, two tasks without predecessor, two
    milestones without any relationship. *)
Definition scenario_a : list Activity :=
  [lone_milestone; tied_task; open_start_task; tied_task; tied_task;
   open_start_task; tied_task; tied_task; tied_task; lone_milestone].

(** Scenario E of the specification: Missing Logic at 60 with 4 logic gaps,
    3 activities with negative float, the other four read metrics at 100;
    the second mapping adds a Leads result with score 0. *)
Definition scenario_e : dict (dict num) :=
  [("logic", [("score", Float 60); ("tasksWithoutPredecessors", Int 2);
              ("tasksWithoutSuccessors", Int 2); ("totalTasks", Int 10)]);
   ("negativeFloat", [("score", Float 40); ("negativeFloatTasks", Int 3);
                      ("totalTasks", Int 10)]);
   ("highFloat", [("score", Float 100); ("highFloatTasks", Int 0);
                  ("threshold", Int 44); ("totalTasks", Int 10)]);
   ("highDuration", [("score", Float 100); ("highDurationTasks", Int 0);
                     ("threshold", Int 44); ("totalTasks", Int 10)]);
   ("hardConstraints", [("score", Float 100); ("constrainedTasks", Int 0);
                        ("totalTasks", Int 10)]);
   ("resources", [("score", Float 100); ("tasksWithResources", Int 10);
                  ("totalTasks", Int 10);
                  ("resourceAssignmentRate", Float 100)])].

Definition scenario_e_recommendations : list Recommendation :=
  [{| category := "Logic"; priority := "high";
      message := "4 activities missing logic relationships";
      action := "Add predecessor and successor relationships to all activities" |};
   {| category := "Schedule"; priority := "high";
      message := "3 activities have negative float";
      action := "Review and adjust schedule to resolve negative float" |}].

(** One slack task among three tied tasks: High Float scores 66.67, Resources
    0, the other eight metrics 100. *)
Definition three_tasks : list Activity := [slack_task; tied_task; tied_task].

(** One task that starts after it finishes, and three tasks without dates. *)
Definition one_dated_of_four : list Activity :=
  [backwards_task; undated_task; undated_task; undated_task].

(** Fifty thousand activities, one of them late. *)
Definition one_late_of_50000 : list Activity :=
  late_task :: repeat tied_task (Z.to_nat 49999).

(* ================================================================== *)
(** ** The two POST endpoints

    [parse_xer] and [analyze_xer], from the point where the request has been
    looked at to the response.  What lies outside the program is taken as
    given:

    - the request is one of three kinds: a multipart upload (['file' in
      request.files]), a JSON body ([request.is_json]), or neither.  For
      the first two the request carries what the statements before the
      reader is called come to: the bytes written to the temporary file,
      or the exception raised on the way ([file.save], [get_json],
      [b64decode], [write]);
    - [read] is [Reader(tmp_path)] followed by [os.unlink(tmp_path)] on a
      file with the given bytes;
    - the objects of the reader are those of the library: they are
      described by what iterating over [xer.projects] and over
      [project.activities] yields, with the attributes the endpoints read;
      [len_projects] is [len(xer.projects)], which the library's object
      may or may not support;
    - [format_exc] is [traceback.format_exc()] and [isoformat] the method of
      [datetime];
    - the two time stamps are arguments.

    A response is the value passed to [jsonify] with the status code. *)

Module Service.

(** Values that [jsonify] serialises. *)
#[local] Unset Elimination Schemes.
Inductive json : Type :=
| JNull
| JBool (b : bool)
| JNum (n : num)
| JStr (s : string)
| JList (l : list json)
| JDict (d : list (string * json)).
#[local] Set Elimination Schemes.

(** An exception as the handlers report it: [type(e).__name__] and
    [str(e)]. *)
Record Exc : Type := {
  exc_type : string;
  exc_message : string
}.

Inductive outcome (A : Type) : Type :=
| Return (a : A)
| Throw (e : Exc).

Arguments Return {A} a.
Arguments Throw {A} e.

Definition and_then {A B : Type} (c : outcome A) (k : A -> outcome B)
  : outcome B :=
  match c with
  | Return a => k a
  | Throw e => Throw e
  end.

(** The reader's objects with the attributes the endpoints read besides
    those of the analyzer; [view] is the activity as the analyzer sees it.
    An attribute tested with [hasattr] is optional. *)
Record Task : Type := {
  task_id : json;
  task_name : json;
  task_code : option json;
  status : json;
  phys_complete_pct : option json;
  view : Activity
}.

Record Project : Type := {
  proj_id : json;
  proj_short_name : json;
  proj_name : option json;
  activities : list Task
}.

Record Reader : Type := {
  projects : list Project
}.

(** The same reader, as [DCMAAnalyzer] reads it. *)
Definition analyzer_view (xer : Reader) : Xer.Reader :=
  {| Xer.projects :=
       map (fun p => {| Xer.activities := map view (activities p) |})
           (projects xer) |}.

Inductive Request : Type :=
| Upload (content : outcome string)
| Json (content : outcome string)
| Neither.

Definition Response : Type := (json * Z)%type.

(** An exception of the analyzer, as [except Exception as e] sees it. *)
Definition exc_of (e : Py.exn) : Exc :=
  match e with
  | ZeroDivisionError =>
      {| exc_type := "ZeroDivisionError"; exc_message := "division by zero" |}
  | KeyError k =>
      {| exc_type := "KeyError"; exc_message := "'" ++ k ++ "'" |}
  | Unmodelled =>
      {| exc_type := "Unmodelled"; exc_message := "" |}
  end.

Definition lift {A : Type} (r : res A) : outcome A :=
  match r with
  | Ok a => Return a
  | Raise e => Throw (exc_of e)
  end.

(** The dicts of the analyzer under [jsonify]. *)
Definition json_of_metric (m : dict num) : json :=
  JDict (map (fun kv => (fst kv, JNum (snd kv))) m).

Definition json_of_recommendation (r : Recommendation) : json :=
  JDict [("category", JStr (category r));
         ("priority", JStr (priority r));
         ("message", JStr (message r));
         ("action", JStr (action r))].

Definition json_of_value (v : value) : json :=
  match v with
  | VBool b => JBool b
  | VStr s => JStr s
  | VNum n => JNum n
  | VMetrics m => JDict (map (fun km => (fst km, json_of_metric (snd km))) m)
  | VRecommendations rs => JList (map json_of_recommendation rs)
  | VSummary s =>
      JDict [("totalActivities", JNum (Int (totalActivities s)));
             ("criticalIssues", JNum (Int (criticalIssues s)));
             ("analyzedAt", JStr (analyzedAt s))]
  end.

Definition json_of_result (d : dict value) : json :=
  JDict (map (fun kv => (fst kv, json_of_value (snd kv))) d).


(** [x * 8 if x else 0]. *)
Definition hours (x : option Q) : json :=
  match x with
  | Some q => if truthy_num (Some q) then JNum (Float (q * 8)) else JNum (Int 0)
  | None => JNum (Int 0)
  end.

Section Endpoints.

Variable read : string -> outcome Reader.
Variable len_projects : Reader -> outcome Z.
Variable format_exc : Exc -> string.
Variable isoformat : Z -> string.

(** [d.isoformat() if d else None]. *)
Definition iso_or_none (d : option Z) : json :=
  match d with
  | Some z => if truthy_date (Some z) then JStr (isoformat z) else JNull
  | None => JNull
  end.


(** The [except Exception as e] clause of [analyze_xer]. *)
Definition analyze_handler (r : outcome Response) : Response :=
  match r with
  | Return resp => resp
  | Throw e =>
      (JDict [("error", JBool true);
              ("message", JStr (exc_message e));
              ("type", JStr (exc_type e));
              ("traceback", JStr (format_exc e))], 500)
  end.

Definition no_content : Response :=
  (JDict [("error", JBool true);
          ("message", JStr "No file or content provided")], 400).





Definition task_row (activity : Task) : json :=
  JDict [("task_id", task_id activity);
         ("task_name", task_name activity);
         ("target_drtn_hr_cnt", hours (duration (view activity)));
         ("total_float_hr_cnt", hours (total_float (view activity)));
         ("target_start_date", iso_or_none (start (view activity)));
         ("target_end_date", iso_or_none (finish (view activity)));
         ("status_code", status activity)].

(** The rows of the TASK table: the first 500 activities of each project. *)
Definition task_rows (xer : Reader) : list json :=
  fold_left
    (fun tasks project =>
       fold_left (fun tasks activity => tasks ++ [task_row activity])
                 (firstn 500 (activities project)) tasks)
    (projects xer) [].

(** [analyze_xer] once [xer] is bound. *)
Definition analyze_result (xer : Reader) (analyzedAt parsedAt : string)
  : outcome Response :=
  let analyzer := DCMAAnalyzer.__init__ (analyzer_view xer) in
  and_then (lift (DCMAAnalyzer.analyze analyzer analyzedAt)) (fun dcma_result =>
  let tasks := task_rows xer in
  Return
    (JDict [("success", JBool true);
            ("data",
             JDict [("tables", JDict [("TASK", JList tasks)]);
                    ("tableList", JList [JStr "TASK"]);
                    ("meta",
                     JDict [("fileType", JStr "xer");
                            ("recordCount", JNum (Int (len tasks)));
                            ("tableCount", JNum (Int 1));
                            ("parsedAt", JStr parsedAt);
                            ("parser", JStr "PyP6Xer v2.0")]);
                    ("dcma", json_of_result dcma_result)])], 200)).

(** In the upload branch the reader is built by [Xer(tmp_path)], and no
    [Xer] is imported or defined in the module. *)
Definition name_error_Xer : Exc :=
  {| exc_type := "NameError"; exc_message := "name 'Xer' is not defined" |}.

Definition analyze_xer (request : Request) (analyzedAt parsedAt : string)
  : Response :=
  match request with
  | Upload content =>
      analyze_handler
        (and_then content (fun bytes =>
         and_then (@Throw Reader name_error_Xer) (fun xer =>
         analyze_result xer analyzedAt parsedAt)))
  | Json content =>
      analyze_handler
        (and_then content (fun bytes =>
         and_then (read bytes) (fun xer =>
         analyze_result xer analyzedAt parsedAt)))
  | Neither => no_content
  end.

End Endpoints.

(** [j[k]] on the dict of a response. *)
Definition item (k : string) (j : json) : option json :=
  match j with
  | JDict d => lookup k d
  | _ => None
  end.

(** [j[k1][k2]...]. *)
Fixpoint path (ks : list string) (j : json) : option json :=
  match ks with
  | [] => Some j
  | k :: ks' => match item k j with
                | Some j' => path ks' j'
                | None => None
                end
  end.

End Service.

Section SampleRequests.

Import Service.


Definition sample_project (tasks : list Service.Task) : Service.Project :=
  {| proj_id := JNum (Int 1); proj_short_name := JStr "P1"; proj_name := None;
     Service.activities := tasks |}.


(** Two projects without activities. *)
Definition empty_reader : Service.Reader :=
  {| Service.projects := [sample_project []; sample_project []] |}.

Definition reading (xer : Service.Reader) : string -> outcome Service.Reader :=
  fun _ => Return xer.



Definition sample_format_exc (e : Exc) : string :=
  (exc_type e ++ ": " ++ exc_message e)%string.

Definition sample_isoformat (z : Z) : string := str_int z.

End SampleRequests.

(* ================================================================== *)
(** ** Arithmetic of the Python fragments *)

Section PyFacts.

Open Scope Q_scope.

Lemma Qlt_bool_iff (x y : Q) : Qlt_bool x y = true <-> x < y.
Proof.
  unfold Qlt_bool. rewrite negb_true_iff.
  split; intro H.
  - apply Qnot_le_lt. intro Hle. apply Qle_bool_iff in Hle. congruence.
  - destruct (Qle_bool y x) eqn:E; [|reflexivity].
    apply Qle_bool_iff in E. exfalso. exact (Qlt_not_le _ _ H E).
Qed.

Lemma Qlt_bool_false_iff (x y : Q) : Qlt_bool x y = false <-> y <= x.
Proof.
  unfold Qlt_bool. rewrite negb_false_iff. apply Qle_bool_iff.
Qed.

Lemma Qeq_bool_inject_Z (a b : Z) :
  Qeq_bool (inject_Z a) (inject_Z b) = (a =? b)%Z.
Proof.
  unfold Qeq_bool, inject_Z; simpl. now rewrite !Z.mul_1_r.
Qed.

Lemma round_half_even_floor (x : Q) :
  (Qfloor x <= round_half_even x <= Qfloor x + 1)%Z.
Proof.
  unfold round_half_even.
  destruct (x - inject_Z (Qfloor x) ?= 1 # 2); [destruct (Z.even _)| |]; lia.
Qed.

Lemma round_half_even_Z (z : Z) : round_half_even (inject_Z z) = z.
Proof.
  unfold round_half_even. rewrite Qfloor_Z.
  assert (H : inject_Z z - inject_Z z < 1 # 2) by lra.
  now rewrite (proj1 (Qlt_alt _ _) H).
Qed.

Lemma round_half_even_ge (k : Z) (x : Q) :
  inject_Z k <= x -> (k <= round_half_even x)%Z.
Proof.
  intro H. apply Qfloor_resp_le in H. rewrite Qfloor_Z in H.
  pose proof (round_half_even_floor x). lia.
Qed.

Lemma round_half_even_le (k : Z) (x : Q) :
  x <= inject_Z k -> (round_half_even x <= k)%Z.
Proof.
  intro H.
  pose proof (Qfloor_le x) as Hfl.
  assert (Hk : (Qfloor x <= k)%Z).
  { apply Qfloor_resp_le in H. now rewrite Qfloor_Z in H. }
  unfold round_half_even.
  destruct (x - inject_Z (Qfloor x) ?= 1 # 2) eqn:E.
  - apply Qeq_alt in E.
    assert (Hlt : inject_Z (Qfloor x) < inject_Z k) by lra.
    rewrite <- Zlt_Qlt in Hlt. destruct (Z.even _); lia.
  - exact Hk.
  - apply Qgt_alt in E.
    assert (Hlt : inject_Z (Qfloor x) < inject_Z k) by lra.
    rewrite <- Zlt_Qlt in Hlt. lia.
Qed.

(** Rounding moves a value by at most one half. *)
Lemma round_half_even_near (x : Q) :
  x - (1 # 2) <= inject_Z (round_half_even x) <= x + (1 # 2).
Proof.
  pose proof (Qfloor_le x) as Hlo.
  pose proof (Qlt_floor x) as Hhi.
  rewrite inject_Z_plus in Hhi. change (inject_Z 1) with 1 in Hhi.
  unfold round_half_even.
  destruct (x - inject_Z (Qfloor x) ?= 1 # 2) eqn:E.
  - apply Qeq_alt in E.
    destruct (Z.even _);
      [|rewrite inject_Z_plus; change (inject_Z 1) with 1]; lra.
  - apply Qlt_alt in E. lra.
  - apply Qgt_alt in E.
    rewrite inject_Z_plus; change (inject_Z 1) with 1. lra.
Qed.

(** Division by the constant 100, put in the form the linear solver reads. *)
Lemma Qdiv_100 (x : Q) : x / 100 == x * (1 # 100).
Proof. reflexivity. Qed.

Lemma round2_ge (k : Z) (x : num) :
  inject_Z k <= num_val x -> inject_Z k <= num_val (round2 x).
Proof.
  destruct x as [z|q]; simpl; [trivial|].
  intro H.
  assert (Hk : inject_Z (k * 100) <= q * 100).
  { rewrite inject_Z_mult. change (inject_Z 100) with 100. lra. }
  apply round_half_even_ge in Hk. rewrite Zle_Qle in Hk.
  rewrite inject_Z_mult in Hk. change (inject_Z 100) with 100 in Hk.
  rewrite Qdiv_100. lra.
Qed.

Lemma round2_le (k : Z) (x : num) :
  num_val x <= inject_Z k -> num_val (round2 x) <= inject_Z k.
Proof.
  destruct x as [z|q]; simpl; [trivial|].
  intro H.
  assert (Hk : q * 100 <= inject_Z (k * 100)).
  { rewrite inject_Z_mult. change (inject_Z 100) with 100. lra. }
  apply round_half_even_le in Hk. rewrite Zle_Qle in Hk.
  rewrite inject_Z_mult in Hk. change (inject_Z 100) with 100 in Hk.
  rewrite Qdiv_100. lra.
Qed.

(** [round(x, 2)] is within 0.005 of [x]. *)
Lemma round2_near (x : num) :
  num_val x - (1 # 200) <= num_val (round2 x) <= num_val x + (1 # 200).
Proof.
  destruct x as [z|q]; simpl; [lra|].
  pose proof (round_half_even_near (q * 100)). rewrite Qdiv_100. lra.
Qed.

(** The result of [round(x, 2)] is a whole number of hundredths. *)
Lemma round2_hundredths (x : num) :
  exists k : Z, num_val (round2 x) == inject_Z k / 100.
Proof.
  destruct x as [z|q]; simpl.
  - exists (z * 100)%Z. rewrite inject_Z_mult.
    change (inject_Z 100) with 100. field.
  - eexists. reflexivity.
Qed.

Lemma num_val_add (a b : num) : num_val (add a b) == num_val a + num_val b.
Proof.
  destruct a, b; cbn [add num_val]; try reflexivity.
  now rewrite inject_Z_plus.
Qed.

Lemma num_val_max (a b : num) :
  num_val (max a b) == Qmax (num_val a) (num_val b).
Proof.
  unfold max, lt.
  destruct (Qlt_bool (num_val a) (num_val b)) eqn:E.
  - apply Qlt_bool_iff in E. symmetry. apply Q.max_r. lra.
  - apply Qlt_bool_false_iff in E. symmetry. apply Q.max_l. exact E.
Qed.

Lemma truediv_Int (n d : Z) :
  (d > 0)%Z ->
  truediv (Int n) (Int d) = Ok (Float (inject_Z n / inject_Z d)).
Proof.
  intro Hd. unfold truediv; simpl.
  change 0 with (inject_Z 0). rewrite Qeq_bool_inject_Z.
  destruct (d =? 0)%Z eqn:E; [apply Z.eqb_eq in E; lia | reflexivity].
Qed.

End PyFacts.

(* ================================================================== *)
(** ** The counts behind the metrics

    Each metric counts a class of activities or relationships.  The loops
    of the source are shown to compute the sizes of the corresponding
    filtered lists. *)

Section Counting.

Context {A : Type}.

Lemma len_nonneg (l : list A) : 0 <= len l.
Proof. unfold len. lia. Qed.

Lemma len_nil_iff (l : list A) : len l = 0 <-> l = [].
Proof.
  unfold len. destruct l; simpl; split; intro H; try reflexivity; try lia.
  discriminate.
Qed.

Lemma len_cons (x : A) (l : list A) : len (x :: l) = len l + 1.
Proof. unfold len. simpl List.length. lia. Qed.

Lemma len_app (l1 l2 : list A) : len (l1 ++ l2) = len l1 + len l2.
Proof. unfold len. rewrite length_app. lia. Qed.

Lemma len_filter_le (p : A -> bool) (l : list A) : len (filter p l) <= len l.
Proof. unfold len. pose proof (filter_length_le p l). lia. Qed.

(** A counting loop: [for x in l: if p(x): c += 1]. *)
Lemma count_loop (p : A -> bool) (l : list A) (c0 : Z) :
  fold_left (fun c x => if p x then c + 1 else c) l c0 = c0 + len (filter p l).
Proof.
  revert c0. induction l as [|x l IH]; intro c0; simpl.
  - unfold len; simpl. lia.
  - rewrite IH. destruct (p x); [rewrite len_cons|]; lia.
Qed.

End Counting.

Section NestedCounting.

Context {A B : Type}.

(** The same loop nested in a loop over the owners of the items. *)
Lemma nested_count_loop (f : A -> list B) (p : B -> bool) (l : list A) (c0 : Z) :
  fold_left
    (fun c a => fold_left (fun c r => if p r then c + 1 else c) (f a) c) l c0
  = c0 + len (filter p (flat_map f l)).
Proof.
  revert c0. induction l as [|a l IH]; intro c0; simpl.
  - unfold len; simpl. lia.
  - rewrite IH, count_loop, filter_app, len_app. lia.
Qed.

Lemma sum_int_from (xs : list Z) (c0 : Z) :
  fold_left Z.add xs c0 = c0 + sum_int xs.
Proof.
  unfold sum_int. revert c0. induction xs as [|x xs IH]; intro c0; simpl.
  - lia.
  - rewrite IH, (IH x). lia.
Qed.

Lemma sum_len_flat_map (f : A -> list B) (l : list A) :
  sum_int (map (fun a => len (f a)) l) = len (flat_map f l).
Proof.
  induction l as [|a l IH]; simpl.
  - reflexivity.
  - unfold sum_int in *. simpl. rewrite sum_int_from. unfold sum_int.
    rewrite IH, len_app. lia.
Qed.

End NestedCounting.

(** The loop of [_analyze_relationship_types], with its two counters. *)
Lemma relationship_types_loop (acts : list Activity) (c0 t0 : Z) :
  fold_left
    (fun st activity =>
       fold_left
         (fun '(non_fs_count, total_rels) rel =>
            let total_rels := total_rels + 1 in
            if negb (String.eqb (link rel) "PR_FS")
            then (non_fs_count + 1, total_rels)
            else (non_fs_count, total_rels))
         (predecessors activity) st)
    acts (c0, t0)
  = (c0 + len (filter is_non_fs (relationships acts)),
     t0 + len (relationships acts)).
Proof.
  assert (Hin : forall rs c t,
             fold_left
               (fun '(non_fs_count, total_rels) rel =>
                  let total_rels := total_rels + 1 in
                  if negb (String.eqb (link rel) "PR_FS")
                  then (non_fs_count + 1, total_rels)
                  else (non_fs_count, total_rels))
               rs (c, t)
             = (c + len (filter is_non_fs rs), t + len rs)).
  { induction rs as [|r rs IH]; intros c t; cbn [fold_left filter].
    - unfold len; simpl. f_equal; lia.
    - rewrite (len_cons r rs). unfold is_non_fs at 1.
      destruct (negb (String.eqb (link r) "PR_FS")); rewrite IH;
        rewrite ?len_cons; f_equal; lia. }
  revert c0 t0. induction acts as [|a acts IH]; intros c0 t0; simpl.
  - unfold len; simpl. f_equal; lia.
  - rewrite Hin, IH. unfold relationships; simpl.
    rewrite filter_app, !len_app. f_equal; lia.
Qed.

(** The loop of [_analyze_invalid_dates]. *)
Lemma invalid_dates_loop (acts : list Activity) (c0 : Z) :
  fold_left
    (fun invalid_dates activity =>
       if truthy_date (start activity) && truthy_date (finish activity)
       then match start activity, finish activity with
            | Some s, Some f =>
                if s >? f then invalid_dates + 1 else invalid_dates
            | _, _ => invalid_dates
            end
       else invalid_dates)
    acts c0
  = c0 + len (filter has_invalid_dates acts).
Proof.
  revert c0. induction acts as [|a acts IH]; intro c0; simpl.
  - unfold len; simpl. lia.
  - rewrite IH. unfold has_invalid_dates.
    destruct (start a) as [s|], (finish a) as [f|]; simpl;
      try destruct (s >? f); rewrite ?len_cons; lia.
Qed.

(** What the counted classes mean. *)
Lemma has_high_float_iff (a : Activity) :
  has_high_float a = true <-> exists x, total_float a = Some x /\ (44 < x)%Q.
Proof.
  unfold has_high_float, and_num, truthy_num.
  destruct (total_float a) as [x|]; split.
  - rewrite andb_true_iff, Qlt_bool_iff. intros [_ H]. now exists x.
  - intros [y [[= <-] H]]. rewrite andb_true_iff, Qlt_bool_iff. split; [|exact H].
    rewrite negb_true_iff. destruct (Qeq_bool x 0) eqn:E; [|reflexivity].
    apply Qeq_bool_iff in E. lra.
  - discriminate.
  - intros [y [[=] _]].
Qed.

Lemma has_negative_float_iff (a : Activity) :
  has_negative_float a = true <-> exists x, total_float a = Some x /\ (x < 0)%Q.
Proof.
  unfold has_negative_float, and_num, truthy_num.
  destruct (total_float a) as [x|]; split.
  - rewrite andb_true_iff, Qlt_bool_iff. intros [_ H]. now exists x.
  - intros [y [[= <-] H]]. rewrite andb_true_iff, Qlt_bool_iff. split; [|exact H].
    rewrite negb_true_iff. destruct (Qeq_bool x 0) eqn:E; [|reflexivity].
    apply Qeq_bool_iff in E. lra.
  - discriminate.
  - intros [y [[=] _]].
Qed.

Lemma has_high_duration_iff (a : Activity) :
  has_high_duration a = true <-> exists x, duration a = Some x /\ (44 < x)%Q.
Proof.
  unfold has_high_duration, and_num, truthy_num.
  destruct (duration a) as [x|]; split.
  - rewrite andb_true_iff, Qlt_bool_iff. intros [_ H]. now exists x.
  - intros [y [[= <-] H]]. rewrite andb_true_iff, Qlt_bool_iff. split; [|exact H].
    rewrite negb_true_iff. destruct (Qeq_bool x 0) eqn:E; [|reflexivity].
    apply Qeq_bool_iff in E. lra.
  - discriminate.
  - intros [y [[=] _]].
Qed.

Lemma has_invalid_dates_iff (a : Activity) :
  has_invalid_dates a = true
  <-> exists s f, start a = Some s /\ finish a = Some f /\ s > f.
Proof.
  unfold has_invalid_dates.
  destruct (start a) as [s|], (finish a) as [f|]; split;
    try discriminate; try (intros [s' [f' [H1 [H2 _]]]]; discriminate).
  - intro H. exists s, f. repeat split. now apply Z.gtb_gt.
  - intros [s' [f' [[= <-] [[= <-] H]]]]. now apply Z.gtb_gt.
Qed.

(* ================================================================== *)
(** ** The ten metrics in closed form

    For each metric, the dict the method returns.  The equations also show
    that no method raises. *)

Section ClosedForms.

Import DCMAAnalyzer.

Variable self : DCMAAnalyzer.t.

Let acts := DCMAAnalyzer.activities self.

Lemma penalty_step (n total w : Z) :
  total > 0 ->
  (r <- truediv (Int n) (Int total) ;;
   Ok (max (Int 0) (sub (Int 100) (mul r (Int w)))))
  = Ok (penalty_score n total w).
Proof. intro H. now rewrite truediv_Int. Qed.

Lemma gtb_pos (z : Z) : (z >? 0) = true -> z > 0.
Proof. intro H. apply Z.gtb_gt in H. lia. Qed.

Lemma count_pos_total {A : Type} (p : A -> bool) (l : list A) :
  (len (filter p l) =? 0) = false -> len l > 0.
Proof.
  intro H. apply Z.eqb_neq in H.
  pose proof (len_filter_le p l). pose proof (len_nonneg (filter p l)). lia.
Qed.

(** Resolves the guard of a metric and the division behind it. *)
Ltac metric_guard :=
  cbv zeta;
  match goal with
  | |- context [if ?c then _ else _] => destruct c eqn:?
  end;
  try (rewrite penalty_step
        by (match goal with
            | H : (_ >? 0) = true |- _ => exact (gtb_pos _ H)
            | H : (_ =? 0) = false |- _ => exact (count_pos_total _ _ H)
            end));
  try (rewrite truediv_Int
        by (match goal with
            | H : (_ >? 0) = true |- _ => exact (gtb_pos _ H)
            end));
  reflexivity.

Lemma missing_logic_eq :
  _analyze_missing_logic self
  = Ok [("score", round2 (missing_logic_raw acts));
        ("tasksWithoutPredecessors",
         Int (len (filter lacks_predecessors (regular_activities acts))));
        ("tasksWithoutSuccessors",
         Int (len (filter lacks_successors (regular_activities acts))));
        ("totalTasks", Int (len (regular_activities acts)))].
Proof.
  unfold _analyze_missing_logic, missing_logic_raw, regular_activities,
    is_milestone, lacks_predecessors, lacks_successors.
  fold acts. metric_guard.
Qed.

Lemma high_float_eq :
  _analyze_high_float self
  = Ok [("score", round2 (high_float_raw acts));
        ("highFloatTasks", Int (len (filter has_high_float acts)));
        ("threshold", Int 44);
        ("totalTasks", Int (len acts))].
Proof.
  unfold _analyze_high_float, high_float_raw, has_high_float.
  fold acts. metric_guard.
Qed.

Lemma negative_float_eq :
  _analyze_negative_float self
  = Ok [("score", round2 (negative_float_raw acts));
        ("negativeFloatTasks", Int (len (filter has_negative_float acts)));
        ("totalTasks", Int (len acts))].
Proof.
  unfold _analyze_negative_float, negative_float_raw, has_negative_float.
  fold acts. metric_guard.
Qed.

Lemma high_duration_eq :
  _analyze_high_duration self
  = Ok [("score", round2 (high_duration_raw acts));
        ("highDurationTasks", Int (len (filter has_high_duration acts)));
        ("threshold", Int 44);
        ("totalTasks", Int (len acts))].
Proof.
  unfold _analyze_high_duration, high_duration_raw, has_high_duration.
  fold acts. metric_guard.
Qed.

Lemma hard_constraints_eq :
  _analyze_hard_constraints self
  = Ok [("score", round2 (hard_constraints_raw acts));
        ("constrainedTasks", Int (len (filter has_hard_constraint acts)));
        ("totalTasks", Int (len acts))].
Proof.
  unfold _analyze_hard_constraints, hard_constraints_raw, has_hard_constraint.
  fold acts. metric_guard.
Qed.

Lemma leads_eq :
  _analyze_leads self
  = Ok [("score", round2 (leads_raw acts));
        ("leadsFound", Int (len (filter is_lead (relationships acts))));
        ("totalRelationships", Int (len (relationships acts)))].
Proof.
  unfold _analyze_leads, leads_raw, is_lead, relationships. fold acts.
  rewrite nested_count_loop, sum_len_flat_map, Z.add_0_l. metric_guard.
Qed.

Lemma lags_eq :
  _analyze_lags self
  = Ok [("score", round2 (lags_raw acts));
        ("excessiveLags", Int (len (filter is_excessive_lag (relationships acts))));
        ("threshold", Int 20)].
Proof.
  unfold _analyze_lags, lags_raw, is_excessive_lag, relationships. fold acts.
  cbv zeta.
  rewrite nested_count_loop, sum_len_flat_map, Z.add_0_l. metric_guard.
Qed.

Lemma relationship_types_eq :
  _analyze_relationship_types self
  = Ok [("score", round2 (relationship_types_raw acts));
        ("nonFSRelationships", Int (len (filter is_non_fs (relationships acts))));
        ("totalRelationships", Int (len (relationships acts)))].
Proof.
  unfold _analyze_relationship_types, relationship_types_raw. fold acts.
  rewrite relationship_types_loop, !Z.add_0_l. metric_guard.
Qed.

Lemma invalid_dates_eq :
  _analyze_invalid_dates self
  = Ok [("score", round2 (invalid_dates_raw acts));
        ("invalidDates", Int (len (filter has_invalid_dates acts)));
        ("totalTasks", Int (len acts))].
Proof.
  unfold _analyze_invalid_dates, invalid_dates_raw. fold acts.
  rewrite invalid_dates_loop, Z.add_0_l. metric_guard.
Qed.

Lemma resources_eq :
  _analyze_resources self
  = Ok [("score", round2 (resources_raw acts));
        ("tasksWithResources", Int (len (filter has_resources acts)));
        ("totalTasks", Int (len acts));
        ("resourceAssignmentRate", round2 (resources_raw acts))].
Proof.
  unfold _analyze_resources, resources_raw, has_resources.
  fold acts. metric_guard.
Qed.

End ClosedForms.

(* ================================================================== *)
(** ** Bounds on the scores *)

Section ScoreBounds.

Open Scope Q_scope.

Lemma ratio_nonneg (n total : Z) :
  (0 <= n)%Z -> (total > 0)%Z -> 0 <= inject_Z n / inject_Z total.
Proof.
  intros Hn Ht.
  apply Qle_shift_div_l.
  - change 0 with (inject_Z 0). rewrite <- Zlt_Qlt. lia.
  - rewrite Qmult_0_l. change 0 with (inject_Z 0). rewrite <- Zle_Qle. lia.
Qed.

Lemma ratio_le_1 (n total : Z) :
  (n <= total)%Z -> (total > 0)%Z -> inject_Z n / inject_Z total <= 1.
Proof.
  intros Hn Ht.
  apply Qle_shift_div_r.
  - change 0 with (inject_Z 0). rewrite <- Zlt_Qlt. lia.
  - rewrite Qmult_1_l. rewrite <- Zle_Qle. lia.
Qed.

(** The two outcomes of [max(0, 100 - x)]. *)
Lemma penalty_score_cases (n total w : Z) :
  let x := 100 - inject_Z n / inject_Z total * inject_Z w in
  (x <= 0 /\ penalty_score n total w = Int 0)
  \/ (0 < x /\ penalty_score n total w = Float x).
Proof.
  intro x. unfold penalty_score, max, lt.
  cbn [sub mul num_val].
  change (inject_Z 100 - inject_Z n / inject_Z total * inject_Z w) with x.
  destruct (Qlt_bool (inject_Z 0) x) eqn:E.
  - right. apply Qlt_bool_iff in E. split; [exact E | reflexivity].
  - left. apply Qlt_bool_false_iff in E. split; [exact E | reflexivity].
Qed.

Lemma penalty_score_val (n total w : Z) :
  num_val (penalty_score n total w)
  == Qmax 0 (100 - inject_Z n / inject_Z total * inject_Z w).
Proof.
  destruct (penalty_score_cases n total w) as [[H ->]|[H ->]]; cbn [num_val].
  - symmetry. apply Q.max_l. exact H.
  - symmetry. apply Q.max_r. lra.
Qed.

Lemma penalty_score_range (n total w : Z) :
  (0 <= n)%Z -> (total > 0)%Z -> (0 <= w)%Z ->
  0 <= num_val (penalty_score n total w) <= 100.
Proof.
  intros Hn Ht Hw.
  pose proof (ratio_nonneg n total Hn Ht) as Hr.
  assert (Hw' : 0 <= inject_Z w).
  { change 0 with (inject_Z 0). rewrite <- Zle_Qle. exact Hw. }
  pose proof (Qmult_le_0_compat _ _ Hr Hw') as Hx.
  destruct (penalty_score_cases n total w) as [[H ->]|[H ->]]; cbn [num_val].
  - change (inject_Z 0) with 0. lra.
  - lra.
Qed.

(** When the numerator is at most the denominator the clamp at 0 is idle
    for a weight up to 100, and the score is at least [100 - w]. *)
Lemma penalty_score_unclamped (n total w : Z) :
  (0 <= n <= total)%Z -> (total > 0)%Z -> (0 <= w < 100)%Z ->
  penalty_score n total w
  = Float (100 - inject_Z n / inject_Z total * inject_Z w)
  /\ inject_Z (100 - w) <= num_val (penalty_score n total w).
Proof.
  intros [Hn Hle] Ht [Hw Hw100].
  pose proof (ratio_nonneg n total Hn Ht) as Hr0.
  pose proof (ratio_le_1 n total Hle Ht) as Hr1.
  assert (Hw0 : 0 <= inject_Z w).
  { change 0 with (inject_Z 0). rewrite <- Zle_Qle. exact Hw. }
  assert (Hw1 : inject_Z w < 100).
  { change 100 with (inject_Z 100). rewrite <- Zlt_Qlt. exact Hw100. }
  assert (Hx : inject_Z n / inject_Z total * inject_Z w <= inject_Z w).
  { rewrite <- (Qmult_1_l (inject_Z w)) at 2.
    apply Qmult_le_compat_r; assumption. }
  destruct (penalty_score_cases n total w) as [[H E]|[H E]]; rewrite E.
  - exfalso. lra.
  - split; [reflexivity|]. cbn [num_val].
    unfold Zminus. rewrite inject_Z_plus, inject_Z_opp.
    change (inject_Z 100) with 100. lra.
Qed.

End ScoreBounds.

Lemma round2_in_range (x : num) :
  (0 <= num_val x <= 100)%Q -> (0 <= num_val (round2 x) <= 100)%Q.
Proof.
  intros [H0 H100]. split.
  - apply (round2_ge 0). exact H0.
  - apply (round2_le 100). exact H100.
Qed.

Section RawRanges.

Variable acts : list Activity.

Open Scope Q_scope.

Let Int0_range : 0 <= num_val (Int 0) <= 100.
Proof. cbn [num_val]. change (inject_Z 0) with 0. lra. Qed.

Let Int100_range : 0 <= num_val (Int 100) <= 100.
Proof. cbn [num_val]. change (inject_Z 100) with 100. lra. Qed.

Lemma missing_logic_raw_range : 0 <= num_val (missing_logic_raw acts) <= 100.
Proof.
  unfold missing_logic_raw. cbv zeta.
  destruct (len (regular_activities acts) >? 0)%Z eqn:E; [|exact Int0_range].
  apply penalty_score_range; [| now apply gtb_pos | lia].
  pose proof (len_nonneg (filter lacks_predecessors (regular_activities acts))).
  pose proof (len_nonneg (filter lacks_successors (regular_activities acts))).
  lia.
Qed.

Lemma high_float_raw_range : 0 <= num_val (high_float_raw acts) <= 100.
Proof.
  unfold high_float_raw.
  destruct (len acts >? 0)%Z eqn:E; [|exact Int0_range].
  apply penalty_score_range; [apply len_nonneg | now apply gtb_pos | lia].
Qed.

Lemma negative_float_raw_range : 0 <= num_val (negative_float_raw acts) <= 100.
Proof.
  unfold negative_float_raw.
  destruct (len (filter has_negative_float acts) =? 0)%Z eqn:E;
    [exact Int100_range|].
  apply penalty_score_range;
    [apply len_nonneg | now apply count_pos_total in E | lia].
Qed.

Lemma high_duration_raw_range : 0 <= num_val (high_duration_raw acts) <= 100.
Proof.
  unfold high_duration_raw.
  destruct (len acts >? 0)%Z eqn:E; [|exact Int0_range].
  apply penalty_score_range; [apply len_nonneg | now apply gtb_pos | lia].
Qed.

Lemma hard_constraints_raw_range :
  0 <= num_val (hard_constraints_raw acts) <= 100.
Proof.
  unfold hard_constraints_raw.
  destruct (len acts >? 0)%Z eqn:E; [|exact Int0_range].
  apply penalty_score_range; [apply len_nonneg | now apply gtb_pos | lia].
Qed.

Lemma leads_raw_range : 0 <= num_val (leads_raw acts) <= 100.
Proof.
  unfold leads_raw.
  destruct (len (relationships acts) >? 0)%Z eqn:E; [|exact Int100_range].
  apply penalty_score_range; [apply len_nonneg | now apply gtb_pos | lia].
Qed.

Lemma lags_raw_range : 0 <= num_val (lags_raw acts) <= 100.
Proof.
  unfold lags_raw.
  destruct (len (relationships acts) >? 0)%Z eqn:E; [|exact Int100_range].
  apply penalty_score_range; [apply len_nonneg | now apply gtb_pos | lia].
Qed.

Lemma relationship_types_raw_range :
  0 <= num_val (relationship_types_raw acts) <= 100.
Proof.
  unfold relationship_types_raw.
  destruct (len (relationships acts) >? 0)%Z eqn:E; [|exact Int100_range].
  apply penalty_score_range; [apply len_nonneg | now apply gtb_pos | lia].
Qed.

Lemma invalid_dates_raw_range : 0 <= num_val (invalid_dates_raw acts) <= 100.
Proof.
  unfold invalid_dates_raw.
  destruct (len (filter has_invalid_dates acts) =? 0)%Z eqn:E;
    [exact Int100_range|].
  apply penalty_score_range;
    [apply len_nonneg | now apply count_pos_total in E | lia].
Qed.

Lemma resources_raw_range : 0 <= num_val (resources_raw acts) <= 100.
Proof.
  unfold resources_raw.
  destruct (len acts >? 0)%Z eqn:E; [|exact Int0_range].
  apply gtb_pos in E.
  pose proof (ratio_nonneg (len (filter has_resources acts)) (len acts)
                (len_nonneg _) E).
  pose proof (ratio_le_1 (len (filter has_resources acts)) (len acts)
                (len_filter_le _ _) E).
  cbn [mul num_val]. change (inject_Z 100) with 100. lra.
Qed.

End RawRanges.

(* ================================================================== *)
(** ** Properties of the metrics *)

Lemma init_activities (xer : Reader) :
  DCMAAnalyzer.activities (DCMAAnalyzer.__init__ xer)
  = List.concat (map Xer.activities (projects xer)).
Proof.
  unfold DCMAAnalyzer.__init__; cbn [DCMAAnalyzer.activities].
  rewrite <- (app_nil_l (List.concat _)).
  generalize (@nil Activity).
  induction (projects xer) as [|p ps IH]; intro acc; cbn [fold_left map List.concat].
  - now rewrite app_nil_r.
  - rewrite IH. now rewrite app_assoc.
Qed.

Lemma analyzer_of_activities (acts : list Activity) :
  DCMAAnalyzer.activities (analyzer_of acts) = acts.
Proof. reflexivity. Qed.

(** C2.  Every one of the ten metric methods returns (none raises, so the
    division is only ever made with a positive denominator) and its score
    lies in [0, 100].  The denominators are the number of non-milestone
    activities for Missing Logic, the number of activities for Hard
    Constraints, High Float, High Duration and Resources, and the number of
    predecessor relationships for Leads, Lags and Relationship Types, as
    the methods report them; when the denominator is zero the score is the
    fallback of the metric, 0 for the first five and 100 for the last
    three. *)
Theorem metric_scores_bounded_and_guarded (self : DCMAAnalyzer.t) :
  (score_in_range (DCMAAnalyzer._analyze_missing_logic self)
   /\ score_in_range (DCMAAnalyzer._analyze_leads self)
   /\ score_in_range (DCMAAnalyzer._analyze_lags self)
   /\ score_in_range (DCMAAnalyzer._analyze_relationship_types self)
   /\ score_in_range (DCMAAnalyzer._analyze_hard_constraints self)
   /\ score_in_range (DCMAAnalyzer._analyze_high_float self)
   /\ score_in_range (DCMAAnalyzer._analyze_negative_float self)
   /\ score_in_range (DCMAAnalyzer._analyze_high_duration self)
   /\ score_in_range (DCMAAnalyzer._analyze_invalid_dates self)
   /\ score_in_range (DCMAAnalyzer._analyze_resources self))
  /\ (field (DCMAAnalyzer._analyze_missing_logic self) "totalTasks"
      = Some (Int (len (regular_activities (DCMAAnalyzer.activities self))))
      /\ field (DCMAAnalyzer._analyze_hard_constraints self) "totalTasks"
         = Some (Int (len (DCMAAnalyzer.activities self)))
      /\ field (DCMAAnalyzer._analyze_high_float self) "totalTasks"
         = Some (Int (len (DCMAAnalyzer.activities self)))
      /\ field (DCMAAnalyzer._analyze_high_duration self) "totalTasks"
         = Some (Int (len (DCMAAnalyzer.activities self)))
      /\ field (DCMAAnalyzer._analyze_resources self) "totalTasks"
         = Some (Int (len (DCMAAnalyzer.activities self)))
      /\ field (DCMAAnalyzer._analyze_leads self) "totalRelationships"
         = Some (Int (len (relationships (DCMAAnalyzer.activities self))))
      /\ field (DCMAAnalyzer._analyze_relationship_types self)
               "totalRelationships"
         = Some (Int (len (relationships (DCMAAnalyzer.activities self)))))
  /\ (len (regular_activities (DCMAAnalyzer.activities self)) = 0 ->
      field (DCMAAnalyzer._analyze_missing_logic self) "score" = Some (Int 0))
  /\ (len (DCMAAnalyzer.activities self) = 0 ->
      field (DCMAAnalyzer._analyze_hard_constraints self) "score" = Some (Int 0)
      /\ field (DCMAAnalyzer._analyze_high_float self) "score" = Some (Int 0)
      /\ field (DCMAAnalyzer._analyze_high_duration self) "score" = Some (Int 0)
      /\ field (DCMAAnalyzer._analyze_resources self) "score" = Some (Int 0))
  /\ (len (relationships (DCMAAnalyzer.activities self)) = 0 ->
      field (DCMAAnalyzer._analyze_leads self) "score" = Some (Int 100)
      /\ field (DCMAAnalyzer._analyze_lags self) "score" = Some (Int 100)
      /\ field (DCMAAnalyzer._analyze_relationship_types self) "score"
         = Some (Int 100)).
Proof.
  rewrite missing_logic_eq, leads_eq, lags_eq, relationship_types_eq,
    hard_constraints_eq, high_float_eq, negative_float_eq, high_duration_eq,
    invalid_dates_eq, resources_eq.
  unfold score_in_range. cbn [field lookup String.eqb Ascii.eqb Bool.eqb].
  split; [|split; [|split; [|split]]].
  - repeat split;
      try (eexists; split; [reflexivity|]; apply round2_in_range).
    + apply missing_logic_raw_range.
    + apply leads_raw_range.
    + apply lags_raw_range.
    + apply relationship_types_raw_range.
    + apply hard_constraints_raw_range.
    + apply high_float_raw_range.
    + apply negative_float_raw_range.
    + apply high_duration_raw_range.
    + apply invalid_dates_raw_range.
    + apply resources_raw_range.
  - repeat split.
  - intro H. unfold missing_logic_raw; cbv zeta. now rewrite H.
  - intro H.
    unfold hard_constraints_raw, high_float_raw, high_duration_raw,
      resources_raw.
    rewrite H. repeat split.
  - intro H. unfold leads_raw, lags_raw, relationship_types_raw.
    rewrite H. repeat split.
Qed.

Lemma is_milestone_iff (a : Activity) : is_milestone a = true <-> Milestone a.
Proof.
  unfold is_milestone, Milestone. cbn [existsb].
  rewrite !orb_true_iff, !String.eqb_eq. intuition discriminate.
Qed.

Lemma relationships_nonempty (acts : list Activity) :
  (exists a, In a acts /\ predecessors a <> []) -> len (relationships acts) > 0.
Proof.
  intros [a [Hin Hp]].
  destruct (predecessors a) as [|r rs] eqn:E; [congruence|].
  assert (Hr : In r (relationships acts)).
  { unfold relationships. apply in_flat_map. exists a. split; [exact Hin|].
    rewrite E. now left. }
  destruct (relationships acts); [contradiction|]. rewrite len_cons.
  pose proof (len_nonneg l). lia.
Qed.

(** C10.  With at least one predecessor relationship in the schedule, the
    Relationship Types score is between 50 and 100, and the clamp
    [max(0, .)] is not needed: [100 - non_fs / total_rels * 50] is itself at
    least 50, and the score is that value rounded to two decimals, within
    0.005 of it. *)
Theorem relationship_types_score_at_least_50 (self : DCMAAnalyzer.t) :
  (exists a, In a (DCMAAnalyzer.activities self) /\ predecessors a <> []) ->
  let rels := relationships (DCMAAnalyzer.activities self) in
  let unclamped := (100 - inject_Z (len (filter is_non_fs rels))
                          / inject_Z (len rels) * inject_Z 50)%Q in
  exists s,
    field (DCMAAnalyzer._analyze_relationship_types self) "score" = Some s
    /\ (50 <= num_val s <= 100)%Q
    /\ (50 <= unclamped <= 100)%Q
    /\ (unclamped - (1 # 200) <= num_val s <= unclamped + (1 # 200))%Q.
Proof.
  intros Hex rels unclamped. apply relationships_nonempty in Hex.
  fold rels in Hex.
  rewrite relationship_types_eq. cbn [field lookup String.eqb Ascii.eqb Bool.eqb].
  eexists. split; [reflexivity|].
  pose proof (relationship_types_raw_range (DCMAAnalyzer.activities self)) as Hr.
  unfold relationship_types_raw in *. fold rels in Hr |- *.
  assert (E : (len rels >? 0) = true) by (apply Z.gtb_gt; lia).
  rewrite E in *.
  destruct (penalty_score_unclamped (len (filter is_non_fs rels)) (len rels) 50)
    as [Heq Hge]; [|exact Hex|lia|].
  { split; [apply len_nonneg | apply len_filter_le]. }
  rewrite Heq in *. fold unclamped in Hr, Hge |- *.
  cbn [num_val] in Hr, Hge. change (inject_Z (100 - 50)) with 50%Q in Hge.
  split; [split|split; [split|]].
  - apply (round2_ge 50 (Float unclamped)). exact Hge.
  - apply (round2_le 100 (Float unclamped)). apply Hr.
  - exact Hge.
  - apply Hr.
  - apply (round2_near (Float unclamped)).
Qed.

(** One Start-Start link among three relationships: the score is within
    0.005 of 100 - 1/3 * 50, that is 83.33. *)
Lemma relationship_types_score_at_least_50_witness :
  exists s,
    field (DCMAAnalyzer._analyze_relationship_types
             (analyzer_of [tied_task; mixed_links_task]))
          "score" = Some s
    /\ (50 <= num_val s <= 100)%Q
    /\ (50 <= 100 - inject_Z 1 / inject_Z 3 * inject_Z 50 <= 100)%Q
    /\ (100 - inject_Z 1 / inject_Z 3 * inject_Z 50 - (1 # 200) <= num_val s
        <= 100 - inject_Z 1 / inject_Z 3 * inject_Z 50 + (1 # 200))%Q.
Proof.
  apply (relationship_types_score_at_least_50
           (analyzer_of [tied_task; mixed_links_task])).
  exists tied_task. split; [now left | discriminate].
Defined.

Lemma regular_activities_skip (l1 l2 : list Activity) (a : Activity) :
  Milestone a ->
  regular_activities (l1 ++ a :: l2) = regular_activities (l1 ++ l2).
Proof.
  intro Hm. apply is_milestone_iff in Hm.
  unfold regular_activities. rewrite !filter_app. cbn [filter].
  now rewrite Hm.
Qed.

(** C7.  Missing Logic looks at non-milestone activities only.  Removing a
    milestone from the schedule changes nothing in the result of the metric
    (numerator, denominator, score), whatever its relationships.  And when
    exactly 8 activities are not milestones, 2 of them without predecessor
    and none without successor, the counts are 2 and 0, the total is 8 and
    the score is 75. *)
Theorem missing_logic_excludes_milestones :
  (forall (self self' : DCMAAnalyzer.t) l1 a l2,
      DCMAAnalyzer.activities self = l1 ++ a :: l2 ->
      DCMAAnalyzer.activities self' = l1 ++ l2 ->
      Milestone a ->
      DCMAAnalyzer._analyze_missing_logic self
      = DCMAAnalyzer._analyze_missing_logic self')
  /\ (forall self : DCMAAnalyzer.t,
         let reg :=
           filter (fun a => negb (is_milestone a))
                  (DCMAAnalyzer.activities self) in
         len reg = 8 ->
         len (filter (fun a => match predecessors a with [] => true | _ => false end)
                     reg) = 2 ->
         len (filter (fun a => match successors a with [] => true | _ => false end)
                     reg) = 0 ->
         let r := DCMAAnalyzer._analyze_missing_logic self in
         field r "tasksWithoutPredecessors" = Some (Int 2)
         /\ field r "tasksWithoutSuccessors" = Some (Int 0)
         /\ field r "totalTasks" = Some (Int 8)
         /\ exists s, field r "score" = Some s /\ (num_val s == 75)%Q).
Proof.
  split.
  - intros self self' l1 a l2 H H' Hm.
    rewrite !missing_logic_eq. unfold missing_logic_raw.
    rewrite H, H'. now rewrite (regular_activities_skip l1 l2 a Hm).
  - intros self reg Hreg Hp Hs r. subst r.
    rewrite missing_logic_eq. unfold missing_logic_raw.
    change (regular_activities (DCMAAnalyzer.activities self)) with reg.
    assert (Ep : filter lacks_predecessors reg
                 = filter (fun a => match predecessors a with
                                    | [] => true | _ => false end) reg).
    { apply filter_ext. intro a. unfold lacks_predecessors.
      now destruct (predecessors a). }
    assert (Es : filter lacks_successors reg
                 = filter (fun a => match successors a with
                                    | [] => true | _ => false end) reg).
    { apply filter_ext. intro a. unfold lacks_successors.
      now destruct (successors a). }
    cbv zeta. rewrite Ep, Es, Hreg, Hp, Hs.
    cbn [field lookup String.eqb Ascii.eqb Bool.eqb].
    repeat split. eexists. split; [reflexivity|]. vm_compute. reflexivity.
Qed.

(** Scenario A of the specification, and the same schedule with its first
    milestone taken out. *)
Lemma missing_logic_excludes_milestones_witness :
  DCMAAnalyzer._analyze_missing_logic (analyzer_of scenario_a)
  = DCMAAnalyzer._analyze_missing_logic (analyzer_of (tl scenario_a))
  /\ (let r := DCMAAnalyzer._analyze_missing_logic (analyzer_of scenario_a) in
      field r "tasksWithoutPredecessors" = Some (Int 2)
      /\ field r "tasksWithoutSuccessors" = Some (Int 0)
      /\ field r "totalTasks" = Some (Int 8)
      /\ exists s, field r "score" = Some s /\ (num_val s == 75)%Q).
Proof.
  destruct missing_logic_excludes_milestones as [Hskip Hcase].
  split.
  - apply (Hskip (analyzer_of scenario_a) (analyzer_of (tl scenario_a))
             [] lone_milestone (tl scenario_a));
      [reflexivity | reflexivity | left; reflexivity].
  - apply (Hcase (analyzer_of scenario_a)); reflexivity.
Defined.

Lemma filter_skip {A : Type} (p : A -> bool) (l1 l2 : list A) (a : A) :
  p a = false -> filter p (l1 ++ a :: l2) = filter p (l1 ++ l2).
Proof.
  intro H. rewrite !filter_app. cbn [filter]. now rewrite H.
Qed.

(** C9.  An activity whose total float is absent is counted neither by High
    Float nor by Negative Float, and an activity whose duration is absent is
    not counted by High Duration: taking the activity out of the schedule
    leaves these counts as they are. *)
Theorem absent_fields_not_counted
        (self self' : DCMAAnalyzer.t) (l1 l2 : list Activity) (a : Activity) :
  DCMAAnalyzer.activities self = l1 ++ a :: l2 ->
  DCMAAnalyzer.activities self' = l1 ++ l2 ->
  (total_float a = None ->
   field (DCMAAnalyzer._analyze_high_float self) "highFloatTasks"
   = field (DCMAAnalyzer._analyze_high_float self') "highFloatTasks"
   /\ field (DCMAAnalyzer._analyze_negative_float self) "negativeFloatTasks"
      = field (DCMAAnalyzer._analyze_negative_float self') "negativeFloatTasks")
  /\ (duration a = None ->
      field (DCMAAnalyzer._analyze_high_duration self) "highDurationTasks"
      = field (DCMAAnalyzer._analyze_high_duration self') "highDurationTasks").
Proof.
  intros H H'.
  rewrite high_float_eq, negative_float_eq, high_duration_eq.
  rewrite (high_float_eq self'), (negative_float_eq self'),
    (high_duration_eq self').
  cbn [field lookup String.eqb Ascii.eqb Bool.eqb].
  rewrite H, H'. split.
  - intro Hf.
    rewrite (filter_skip has_high_float), (filter_skip has_negative_float);
      [split; reflexivity | |].
    + unfold has_negative_float. now rewrite Hf.
    + unfold has_high_float. now rewrite Hf.
  - intro Hd. rewrite (filter_skip has_high_duration); [reflexivity|].
    unfold has_high_duration. now rewrite Hd.
Qed.

(** A task with neither float nor duration between a slack task and a late
    one: one high float and one negative float are counted with it and
    without it. *)
Lemma absent_fields_not_counted_witness :
  (field (DCMAAnalyzer._analyze_high_float
            (analyzer_of [slack_task; undated_task; late_task]))
         "highFloatTasks"
   = field (DCMAAnalyzer._analyze_high_float
              (analyzer_of [slack_task; late_task])) "highFloatTasks"
   /\ field (DCMAAnalyzer._analyze_negative_float
               (analyzer_of [slack_task; undated_task; late_task]))
            "negativeFloatTasks"
      = field (DCMAAnalyzer._analyze_negative_float
                 (analyzer_of [slack_task; late_task])) "negativeFloatTasks")
  /\ field (DCMAAnalyzer._analyze_high_duration
              (analyzer_of [slack_task; undated_task; late_task]))
           "highDurationTasks"
     = field (DCMAAnalyzer._analyze_high_duration
                (analyzer_of [slack_task; late_task])) "highDurationTasks".
Proof.
  destruct (absent_fields_not_counted
              (analyzer_of [slack_task; undated_task; late_task])
              (analyzer_of [slack_task; late_task])
              [slack_task] [late_task] undated_task eq_refl eq_refl)
    as [Hf Hd].
  split; [apply Hf | apply Hd]; reflexivity.
Defined.

(* ================================================================== *)
(** ** The result of [analyze] *)

(** C3.  With no activity, [analyze] returns (it does not raise) a dict
    whose ['error'] is [True] and whose ['message'] begins with
    "No activities found"; the dict has no ['metrics'], no
    ['recommendations'], no ['overallScore'] and no ['summary'] entry. *)
Theorem analyze_without_activities (self : DCMAAnalyzer.t) (utcnow : string) :
  DCMAAnalyzer.activities self = [] ->
  exists d msg,
    DCMAAnalyzer.analyze self utcnow = Ok d
    /\ lookup "error" d = Some (VBool true)
    /\ lookup "message" d = Some (VStr msg)
    /\ String.prefix "No activities found" msg = true
    /\ contains d "metrics" = false
    /\ contains d "overallScore" = false
    /\ contains d "recommendations" = false
    /\ contains d "summary" = false.
Proof.
  intro H. unfold DCMAAnalyzer.analyze. rewrite H. cbn [truthy_list negb].
  do 2 eexists. repeat split.
Qed.

(** A reader whose two projects are empty. *)
Lemma analyze_without_activities_witness :
  exists d msg,
    DCMAAnalyzer.analyze
      (DCMAAnalyzer.__init__
         {| projects := [{| Xer.activities := [] |}; {| Xer.activities := [] |}] |})
      "2024-01-01T00:00:00" = Ok d
    /\ lookup "error" d = Some (VBool true)
    /\ lookup "message" d = Some (VStr msg)
    /\ String.prefix "No activities found" msg = true
    /\ contains d "metrics" = false
    /\ contains d "overallScore" = false
    /\ contains d "recommendations" = false
    /\ contains d "summary" = false.
Proof.
  apply analyze_without_activities. reflexivity.
Defined.

(* ================================================================== *)
(** ** The recommendation generator *)

Lemma bind_assoc {A B C : Type} (c : res A) (k1 : A -> res B) (k2 : B -> res C) :
  (y <- (x <- c ;; k1 x) ;; k2 y) = (x <- c ;; y <- k1 x ;; k2 y).
Proof. now destruct c. Qed.

(** One step through a chain of binds known to end in [Ok]. *)
Ltac step_bind :=
  match goal with
  | |- Py.bind (if ?b then _ else _) _ = Ok _ -> _ => destruct b eqn:?
  | |- Py.bind (Ok _) _ = Ok _ -> _ => cbn [Py.bind]
  | |- Py.bind (Raise _) _ = Ok _ -> _ => intro; discriminate
  | |- Py.bind (Py.bind _ _) _ = Ok _ -> _ => rewrite bind_assoc
  | |- Py.bind ?c _ = Ok _ -> _ => destruct c eqn:?
  end.

Lemma headings_of_output (self : DCMAAnalyzer.t) (metrics : dict (dict num))
      (recs : list Recommendation) :
  DCMAAnalyzer._generate_recommendations self metrics = Ok recs ->
  map (fun r => (category r, priority r)) recs = rule_table_headings metrics.
Proof.
  unfold DCMAAnalyzer._generate_recommendations, rule_table_headings, rule_fires.
  repeat step_bind.
  all: intros [= <-]; reflexivity.
Qed.

Lemma getitem2_agree (m m' : dict (dict num)) (k1 k2 : string) :
  lookup k1 m' = lookup k1 m ->
  DCMAAnalyzer.getitem2 m' k1 k2 = DCMAAnalyzer.getitem2 m k1 k2.
Proof.
  intro H. unfold DCMAAnalyzer.getitem2, getitem. now rewrite H.
Qed.

Lemma generate_depends_on_used_metrics
      (self self' : DCMAAnalyzer.t) (m m' : dict (dict num)) :
  (forall k, In k used_metrics -> lookup k m' = lookup k m) ->
  DCMAAnalyzer._generate_recommendations self' m'
  = DCMAAnalyzer._generate_recommendations self m.
Proof.
  intro H. unfold DCMAAnalyzer._generate_recommendations.
  assert (Hk : forall k1 k2, In k1 used_metrics ->
                 DCMAAnalyzer.getitem2 m' k1 k2 = DCMAAnalyzer.getitem2 m k1 k2).
  { intros k1 k2 Hin. apply getitem2_agree. now apply H. }
  rewrite !(Hk "logic") by (cbn; tauto).
  rewrite !(Hk "negativeFloat") by (cbn; tauto).
  rewrite !(Hk "highFloat") by (cbn; tauto).
  rewrite !(Hk "highDuration") by (cbn; tauto).
  rewrite !(Hk "hardConstraints") by (cbn; tauto).
  rewrite !(Hk "resources") by (cbn; tauto).
  reflexivity.
Qed.

Lemma high_priority_headings (recs : list Recommendation) :
  map category (filter (fun r => String.eqb (priority r) "high") recs)
  = map fst (filter (fun h => String.eqb (snd h) "high")
                    (map (fun r => (category r, priority r)) recs)).
Proof.
  induction recs as [|r recs IH]; cbn [map filter fst snd]; [reflexivity|].
  destruct (String.eqb (priority r) "high"); cbn [map fst]; now rewrite IH.
Qed.

(** On the metrics it is given by [analyze] the generator does not raise:
    every key it reads is there and every interpolated value is an [int]. *)
Lemma generate_on_analysis (self : DCMAAnalyzer.t) (acts : list Activity) :
  exists recs,
    DCMAAnalyzer._generate_recommendations self (metrics_of acts) = Ok recs.
Proof.
  unfold DCMAAnalyzer._generate_recommendations, DCMAAnalyzer.getitem2,
    getitem, metrics_of.
  cbn -[lt gt str_int format_1f Z.add round2 len].
  repeat match goal with
         | |- context [if ?c then _ else _] => destruct c
         end; eexists; reflexivity.
Qed.

(** C8.  The generator returns on every metrics mapping that [analyze]
    builds, and whenever it returns its output is determined by the rule
    table: the entries carry, in this order, the category and priority of
    the rules that fire (Missing Logic score < 80: Logic, high; Negative
    Float count > 0: Schedule, high; High Float score < 70: Float, medium;
    High Duration score < 70: Duration, medium; Hard Constraints score
    < 85: Constraints, medium; Resources score < 50: Resources, low).  The
    output is the same for any analyzer and any metrics mapping that agrees
    on these six metrics, whatever it holds for Leads, Lags, Relationship
    Types and Invalid Dates.  With a Missing Logic score of 60 and a
    Negative Float count of 3, the high-priority entries are exactly Logic,
    then Schedule. *)
Theorem recommendations_follow_rule_table (self : DCMAAnalyzer.t) :
  (forall acts : list Activity,
      exists recs,
        DCMAAnalyzer._generate_recommendations self (metrics_of acts) = Ok recs)
  /\ (forall (metrics : dict (dict num)) (recs : list Recommendation),
         DCMAAnalyzer._generate_recommendations self metrics = Ok recs ->
         map (fun r => (category r, priority r)) recs
         = rule_table_headings metrics
         /\ (forall (self' : DCMAAnalyzer.t) (metrics' : dict (dict num)),
                (forall k, In k used_metrics ->
                           lookup k metrics' = lookup k metrics) ->
                DCMAAnalyzer._generate_recommendations self' metrics' = Ok recs)
         /\ (forall s c,
                DCMAAnalyzer.getitem2 metrics "logic" "score" = Ok s ->
                (num_val s == 60)%Q ->
                DCMAAnalyzer.getitem2 metrics "negativeFloat"
                                      "negativeFloatTasks" = Ok c ->
                (num_val c == 3)%Q ->
                map category
                    (filter (fun r => String.eqb (priority r) "high") recs)
                = ["Logic"; "Schedule"])).
Proof.
  split; [intro acts; apply generate_on_analysis|].
  intros metrics recs H. split; [|split].
  - now apply headings_of_output in H.
  - intros self' metrics' Hagree. rewrite <- H.
    now apply generate_depends_on_used_metrics.
  - intros s c Hs Hs60 Hc Hc3.
    rewrite high_priority_headings, (headings_of_output _ _ _ H).
    unfold rule_table_headings. unfold rule_fires at 1 2. rewrite Hs, Hc.
    assert (E1 : lt s (Int 80) = true).
    { unfold lt. apply Qlt_bool_iff. cbn [num_val].
      change (inject_Z 80) with 80%Q. lra. }
    assert (E2 : gt c (Int 0) = true).
    { unfold gt. apply Qlt_bool_iff. cbn [num_val].
      change (inject_Z 0) with 0%Q. lra. }
    rewrite E1, E2.
    repeat match goal with
           | |- context [if ?b then _ else _] => destruct b
           end; reflexivity.
Qed.

(** Scenario E of the specification, and the same mapping with a Leads
    result of score 0 added in front. *)
Lemma recommendations_follow_rule_table_witness :
  map (fun r => (category r, priority r)) scenario_e_recommendations
  = rule_table_headings scenario_e
  /\ DCMAAnalyzer._generate_recommendations
       (analyzer_of [tied_task])
       (("leads", [("score", Int 0); ("leadsFound", Int 7);
                   ("totalRelationships", Int 7)]) :: scenario_e)
     = Ok scenario_e_recommendations
  /\ map category
         (filter (fun r => String.eqb (priority r) "high")
                 scenario_e_recommendations)
     = ["Logic"; "Schedule"].
Proof.
  destruct (recommendations_follow_rule_table (analyzer_of [])) as [_ Hrules].
  destruct (Hrules scenario_e scenario_e_recommendations eq_refl)
    as [Hhead [Hagree Hhigh]].
  split; [exact Hhead | split].
  - apply Hagree. intros k Hin.
    cbn in Hin. decompose [or] Hin; subst; try reflexivity; contradiction.
  - apply (Hhigh (Float 60) (Int 3)); reflexivity.
Defined.

(* ================================================================== *)
(** ** [analyze] on a schedule with activities *)

Lemma analyze_eq (self : DCMAAnalyzer.t) (utcnow : string) :
  DCMAAnalyzer.activities self <> [] ->
  exists recs,
    DCMAAnalyzer._generate_recommendations
      self (metrics_of (DCMAAnalyzer.activities self)) = Ok recs
    /\ DCMAAnalyzer.analyze self utcnow
       = Ok [("metrics", VMetrics (metrics_of (DCMAAnalyzer.activities self)));
             ("overallScore",
              VNum (Float (num_val (sum (scores_of (DCMAAnalyzer.activities self)))
                           / inject_Z 10)));
             ("recommendations", VRecommendations recs);
             ("summary",
              VSummary
                {| totalActivities := len (DCMAAnalyzer.activities self);
                   criticalIssues :=
                     len (filter (fun r => String.eqb (priority r) "high") recs);
                   analyzedAt := utcnow |})].
Proof.
  intro Hne.
  destruct (generate_on_analysis self (DCMAAnalyzer.activities self))
    as [recs Hrecs].
  exists recs. split; [exact Hrecs|].
  unfold DCMAAnalyzer.analyze.
  rewrite missing_logic_eq, leads_eq, lags_eq, relationship_types_eq,
    hard_constraints_eq, high_float_eq, negative_float_eq, high_duration_eq,
    invalid_dates_eq, resources_eq.
  destruct (DCMAAnalyzer.activities self) as [|a acts] eqn:E; [congruence|].
  cbn [truthy_list negb Py.bind].
  match goal with
  | |- ?lhs = _ =>
      change lhs with
        (recommendations <-
           DCMAAnalyzer._generate_recommendations self (metrics_of (a :: acts)) ;;
         Ok [("metrics", VMetrics (metrics_of (a :: acts)));
             ("overallScore",
              VNum (Float (num_val (sum (scores_of (a :: acts))) / inject_Z 10)));
             ("recommendations", VRecommendations recommendations);
             ("summary",
              VSummary
                {| totalActivities := len (a :: acts);
                   criticalIssues :=
                     len (filter (fun r => String.eqb (priority r) "high")
                                 recommendations);
                   analyzedAt := utcnow |})])
  end.
  now rewrite Hrecs.
Qed.

Lemma num_val_sum_from (xs : list num) (a : num) :
  (num_val (fold_left add xs a) == num_val a + Qsum (map num_val xs))%Q.
Proof.
  revert a. induction xs as [|x xs IH]; intro a; cbn [fold_left map Qsum fold_right].
  - lra.
  - rewrite IH, num_val_add. fold (Qsum (map num_val xs)). lra.
Qed.

Lemma num_val_sum (xs : list num) :
  (num_val (sum xs) == Qsum (map num_val xs))%Q.
Proof.
  unfold sum. rewrite num_val_sum_from. cbn [num_val].
  change (inject_Z 0) with 0%Q. lra.
Qed.

(** C4.  On a schedule with at least one activity [analyze] returns its
    four-entry dict.  The metrics mapping holds the results of the ten
    methods under their ten names; the overall score is the sum of their
    ['score'] entries (0 standing for an entry that is not there) divided
    by ten, exactly so on the rationals of this model; the summary reports
    the number of activities, the number of recommendations of priority
    high and the time stamp it was given. *)
Theorem overall_score_is_mean (self : DCMAAnalyzer.t) (utcnow : string) :
  DCMAAnalyzer.activities self <> [] ->
  exists metrics overall recs summary,
    DCMAAnalyzer.analyze self utcnow
    = Ok [("metrics", VMetrics metrics);
          ("overallScore", VNum overall);
          ("recommendations", VRecommendations recs);
          ("summary", VSummary summary)]
    /\ map fst metrics
       = ["logic"; "leads"; "lags"; "relationshipTypes"; "hardConstraints";
          "highFloat"; "negativeFloat"; "highDuration"; "invalidDates";
          "resources"]
    /\ (getitem metrics "logic" = DCMAAnalyzer._analyze_missing_logic self
        /\ getitem metrics "leads" = DCMAAnalyzer._analyze_leads self
        /\ getitem metrics "lags" = DCMAAnalyzer._analyze_lags self
        /\ getitem metrics "relationshipTypes"
           = DCMAAnalyzer._analyze_relationship_types self
        /\ getitem metrics "hardConstraints"
           = DCMAAnalyzer._analyze_hard_constraints self
        /\ getitem metrics "highFloat" = DCMAAnalyzer._analyze_high_float self
        /\ getitem metrics "negativeFloat"
           = DCMAAnalyzer._analyze_negative_float self
        /\ getitem metrics "highDuration"
           = DCMAAnalyzer._analyze_high_duration self
        /\ getitem metrics "invalidDates"
           = DCMAAnalyzer._analyze_invalid_dates self
        /\ getitem metrics "resources" = DCMAAnalyzer._analyze_resources self)
    /\ (num_val overall
        == Qsum (map (fun m => num_val (get m "score" (Int 0))) (values metrics))
           / 10)%Q
    /\ DCMAAnalyzer._generate_recommendations self metrics = Ok recs
    /\ totalActivities summary = len (DCMAAnalyzer.activities self)
    /\ criticalIssues summary
       = len (filter (fun r => String.eqb (priority r) "high") recs)
    /\ analyzedAt summary = utcnow.
Proof.
  intro Hne.
  destruct (analyze_eq self utcnow Hne) as [recs [Hrecs Heq]].
  do 4 eexists. split; [exact Heq|].
  split; [reflexivity|].
  split.
  { rewrite missing_logic_eq, leads_eq, lags_eq, relationship_types_eq,
      hard_constraints_eq, high_float_eq, negative_float_eq, high_duration_eq,
      invalid_dates_eq, resources_eq.
    repeat split. }
  split.
  { cbn [num_val]. rewrite num_val_sum. unfold scores_of. rewrite map_map.
    reflexivity. }
  repeat split. exact Hrecs.
Qed.

Lemma overall_score_is_mean_witness :
  exists metrics overall recs summary,
    DCMAAnalyzer.analyze (analyzer_of three_tasks) "2024-01-01T00:00:00"
    = Ok [("metrics", VMetrics metrics);
          ("overallScore", VNum overall);
          ("recommendations", VRecommendations recs);
          ("summary", VSummary summary)]
    /\ (num_val overall
        == Qsum (map (fun m => num_val (get m "score" (Int 0))) (values metrics))
           / 10)%Q
    /\ totalActivities summary = 3
    /\ criticalIssues summary
       = len (filter (fun r => String.eqb (priority r) "high") recs).
Proof.
  destruct (overall_score_is_mean (analyzer_of three_tasks)
              "2024-01-01T00:00:00")
    as [metrics [overall [recs [summary [H [_ [_ [Hmean [_ [Htot [Hcrit _]]]]]]]]]]].
  { discriminate. }
  exists metrics, overall, recs, summary.
  repeat split; assumption.
Defined.

(** C5, as stated, fails for the overall score: on [three_tasks] the ten
    rounded scores add up to 866.67 and the overall score is 86.667, which
    has three decimal places. *)
Lemma overall_score_not_rounded :
  exists o,
    overall_score (DCMAAnalyzer.analyze (analyzer_of three_tasks)
                                        "2024-01-01T00:00:00") = Some o
    /\ (num_val o == 86667 # 1000)%Q
    /\ ~ two_decimals (num_val o).
Proof.
  eexists. split; [vm_compute; reflexivity|]. split; [reflexivity|].
  intros [k Hk]. cbn [num_val] in Hk. unfold Qeq in Hk. cbn in Hk. lia.
Qed.

(** C5, amended.  Each of the ten per-metric scores in the result of
    [analyze] is the value of [round(., 2)], a number with at most two
    decimal places; the overall score is the mean of these rounded scores
    and is not rounded itself. *)
Theorem metric_scores_rounded (self : DCMAAnalyzer.t) (utcnow : string) :
  DCMAAnalyzer.activities self <> [] ->
  exists metrics overall,
    lookup "metrics" (match DCMAAnalyzer.analyze self utcnow with
                      | Ok d => d
                      | Raise _ => []
                      end) = Some (VMetrics metrics)
    /\ overall_score (DCMAAnalyzer.analyze self utcnow) = Some overall
    /\ List.length metrics = 10%nat
    /\ (forall k m, In (k, m) metrics ->
          exists raw, lookup "score" m = Some (round2 raw)
                      /\ two_decimals (num_val (round2 raw)))
    /\ (num_val overall
        == Qsum (map (fun m => num_val (get m "score" (Int 0))) (values metrics))
           / 10)%Q.
Proof.
  intro Hne.
  destruct (analyze_eq self utcnow Hne) as [recs [_ Heq]].
  rewrite Heq. do 2 eexists.
  split; [reflexivity|]. split; [reflexivity|]. split; [reflexivity|].
  split.
  - intros k m Hin. unfold metrics_of in Hin. cbn [In] in Hin.
    decompose [or] Hin; clear Hin;
      try contradiction;
      match goal with
      | H : (_, _) = (k, m) |- _ => injection H as <- <-
      end;
      (eexists; split; [reflexivity | apply round2_hundredths]).
  - cbn [num_val]. rewrite num_val_sum. unfold scores_of. rewrite map_map.
    reflexivity.
Qed.

Lemma metric_scores_rounded_witness :
  exists metrics overall,
    lookup "metrics"
           (match DCMAAnalyzer.analyze (analyzer_of three_tasks)
                                       "2024-01-01T00:00:00" with
            | Ok d => d
            | Raise _ => []
            end) = Some (VMetrics metrics)
    /\ overall_score (DCMAAnalyzer.analyze (analyzer_of three_tasks)
                                           "2024-01-01T00:00:00")
       = Some overall
    /\ List.length metrics = 10%nat
    /\ (forall k m, In (k, m) metrics ->
          exists raw, lookup "score" m = Some (round2 raw)
                      /\ two_decimals (num_val (round2 raw)))
    /\ (num_val overall
        == Qsum (map (fun m => num_val (get m "score" (Int 0))) (values metrics))
           / 10)%Q.
Proof.
  apply (metric_scores_rounded (analyzer_of three_tasks) "2024-01-01T00:00:00").
  discriminate.
Defined.

(* ================================================================== *)
(** ** Invalid Dates and Negative Float *)

(** C1, as stated, fails: with one dated activity out of four, and that one
    invalid, the method divides by 4 and scores 50, where a total of the
    activities with both dates (1) gives 0. *)
Lemma invalid_dates_total_is_not_included_set :
  let r := DCMAAnalyzer._analyze_invalid_dates (analyzer_of one_dated_of_four) in
  len (filter has_both_dates one_dated_of_four) = 1
  /\ field r "invalidDates" = Some (Int 1)
  /\ field r "totalTasks" = Some (Int 4)
  /\ (invalid_dates_score_over_included one_dated_of_four == 0)%Q
  /\ exists s,
       field r "score" = Some s
       /\ (num_val s == 50)%Q
       /\ ~ (num_val s == invalid_dates_score_over_included one_dated_of_four)%Q.
Proof.
  cbv zeta. split; [reflexivity|]. split; [reflexivity|]. split; [reflexivity|].
  split; [reflexivity|].
  eexists. split; [vm_compute; reflexivity|]. split; [reflexivity|].
  intro H. vm_compute in H. discriminate.
Qed.

Lemma ratio_pos (n total : Z) :
  0 < n -> total > 0 -> (0 < inject_Z n / inject_Z total)%Q.
Proof.
  intros Hn Ht. apply Qlt_shift_div_l.
  - change 0%Q with (inject_Z 0). rewrite <- Zlt_Qlt. lia.
  - rewrite Qmult_0_l. change 0%Q with (inject_Z 0). rewrite <- Zlt_Qlt. lia.
Qed.

(** C1, amended.  The denominator of the Invalid Dates score is the number
    of all activities, with or without dates: the method reports that number
    as ['totalTasks'], the number of activities with both dates present and
    start after finish as ['invalidDates'], and its score is the int 100
    when that count is 0 and otherwise, the total being positive then,
    [max(0, 100 - count / total * 200)] rounded to two decimals, within
    0.005 of that value. *)
Theorem invalid_dates_score_over_all_activities (self : DCMAAnalyzer.t) :
  let acts := DCMAAnalyzer.activities self in
  let r := DCMAAnalyzer._analyze_invalid_dates self in
  let n := len (filter has_invalid_dates acts) in
  let penalised := Qmax 0 (100 - inject_Z n / inject_Z (len acts) * 200) in
  exists s,
    field r "score" = Some s
    /\ field r "invalidDates" = Some (Int n)
    /\ field r "totalTasks" = Some (Int (len acts))
    /\ (n = 0 -> s = Int 100)
    /\ (n <> 0 ->
        len acts > 0
        /\ (penalised - (1 # 200) <= num_val s <= penalised + (1 # 200))%Q).
Proof.
  intros acts r n penalised. subst r. rewrite invalid_dates_eq.
  fold acts. fold n.
  cbn [field lookup String.eqb Ascii.eqb Bool.eqb].
  eexists. split; [reflexivity|]. split; [reflexivity|]. split; [reflexivity|].
  unfold invalid_dates_raw. fold n. split.
  - intros ->. reflexivity.
  - intro Hn. apply Z.eqb_neq in Hn. rewrite Hn. split.
    + now apply count_pos_total in Hn.
    + pose proof (round2_near (penalty_score n (len acts) 200)) as Hnear.
      pose proof (penalty_score_val n (len acts) 200) as Hval.
      change (inject_Z 200) with 200%Q in Hval. fold penalised in Hval.
      rewrite Hval in Hnear. exact Hnear.
Qed.

(** C6, as stated, fails in the direction from the score to the count: with
    one activity of negative float among 50000 the score before rounding is
    99.996 and [round(., 2)] makes it 100, while the count is 1. *)
Lemma negative_float_score_100_with_late_activity :
  let r := DCMAAnalyzer._analyze_negative_float (analyzer_of one_late_of_50000) in
  field r "negativeFloatTasks" = Some (Int 1)
  /\ field r "totalTasks" = Some (Int 50000)
  /\ exists s, field r "score" = Some s /\ (num_val s == 100)%Q.
Proof.
  cbv zeta. split; [vm_compute; reflexivity|]. split; [vm_compute; reflexivity|].
  eexists. split; [vm_compute; reflexivity | reflexivity].
Qed.

Section ExactlyOneHundred.

Open Scope Q_scope.

(** The score before rounding of the two [100 if count == 0 else ...]
    metrics is 100 only when the count is 0. *)
Lemma double_penalty_below_100 (n total : Z) :
  (0 < n)%Z -> (total > 0)%Z -> num_val (penalty_score n total 200) < 100.
Proof.
  intros Hn Ht. pose proof (ratio_pos n total Hn Ht) as Hr.
  destruct (penalty_score_cases n total 200) as [[_ ->]|[_ ->]]; cbn [num_val].
  - reflexivity.
  - change (inject_Z 200) with 200. lra.
Qed.

(** If rounding brings such a score to 100, the counted activities are at
    most one in 40000. *)
Lemma double_penalty_rounds_to_100 (n total : Z) :
  (0 < n)%Z -> (total > 0)%Z ->
  num_val (round2 (penalty_score n total 200)) == 100 ->
  (40000 * n <= total)%Z.
Proof.
  intros Hn Ht H.
  pose proof (round2_near (penalty_score n total 200)) as [_ Hnear].
  rewrite H in Hnear.
  assert (HT : 0 < inject_Z total).
  { change 0 with (inject_Z 0). rewrite <- Zlt_Qlt. lia. }
  destruct (penalty_score_cases n total 200) as [[_ E]|[_ E]];
    rewrite E in Hnear; cbn [num_val] in Hnear.
  - change (inject_Z 0) with 0 in Hnear. lra.
  - change (inject_Z 200) with 200 in Hnear.
    set (q := inject_Z n / inject_Z total) in *.
    assert (Hq : q <= 1 # 40000) by lra.
    assert (Hn' : inject_Z n == q * inject_Z total).
    { unfold q. field. lra. }
    assert (Hm : q * inject_Z total <= (1 # 40000) * inject_Z total).
    { apply Qmult_le_compat_r; [exact Hq | lra]. }
    rewrite Zle_Qle, inject_Z_mult. change (inject_Z 40000) with 40000.
    lra.
Qed.

End ExactlyOneHundred.

Lemma count_positive {A : Type} (p : A -> bool) (l : list A) :
  len (filter p l) <> 0 -> 0 < len (filter p l).
Proof. intro H. pose proof (len_nonneg (filter p l)). lia. Qed.

(** C6, amended.  For Negative Float and for Invalid Dates alike: the score
    before rounding is 100 exactly when the count is 0; a count of 0 gives
    the score 100; and the rounded score [round(., 2)] can be 100 with a
    non-zero count only when at most one activity in 40000 is counted. *)
Theorem score_100_and_zero_count (self : DCMAAnalyzer.t) :
  let acts := DCMAAnalyzer.activities self in
  let late := len (filter has_negative_float acts) in
  let invalid := len (filter has_invalid_dates acts) in
  (exists raw,
      field (DCMAAnalyzer._analyze_negative_float self) "score"
      = Some (round2 raw)
      /\ field (DCMAAnalyzer._analyze_negative_float self) "negativeFloatTasks"
         = Some (Int late)
      /\ ((num_val raw == 100)%Q <-> late = 0)
      /\ (late = 0 -> round2 raw = Int 100)
      /\ ((num_val (round2 raw) == 100)%Q -> 40000 * late <= len acts))
  /\ (exists raw,
         field (DCMAAnalyzer._analyze_invalid_dates self) "score"
         = Some (round2 raw)
         /\ field (DCMAAnalyzer._analyze_invalid_dates self) "invalidDates"
            = Some (Int invalid)
         /\ ((num_val raw == 100)%Q <-> invalid = 0)
         /\ (invalid = 0 -> round2 raw = Int 100)
         /\ ((num_val (round2 raw) == 100)%Q -> 40000 * invalid <= len acts)).
Proof.
  intros acts late invalid.
  rewrite negative_float_eq, invalid_dates_eq. fold acts.
  cbn [field lookup String.eqb Ascii.eqb Bool.eqb].
  split.
  - exists (negative_float_raw acts).
    split; [reflexivity|]. split; [reflexivity|].
    unfold negative_float_raw. fold late.
    destruct (late =? 0) eqn:E.
    + apply Z.eqb_eq in E. rewrite E.
      split; [split; reflexivity|]. split; [reflexivity|].
      intros _. pose proof (len_nonneg acts). lia.
    + pose proof E as Hpos. apply count_pos_total in Hpos.
      apply Z.eqb_neq in E. pose proof (count_positive _ _ E) as Hlate.
      fold late in Hlate. fold acts in Hpos.
      split; [split|split].
      * intro H. pose proof (double_penalty_below_100 late (len acts) Hlate Hpos).
        lra.
      * intro H. contradiction.
      * intro H. contradiction.
      * now apply double_penalty_rounds_to_100.
  - exists (invalid_dates_raw acts).
    split; [reflexivity|]. split; [reflexivity|].
    unfold invalid_dates_raw. fold invalid.
    destruct (invalid =? 0) eqn:E.
    + apply Z.eqb_eq in E. rewrite E.
      split; [split; reflexivity|]. split; [reflexivity|].
      intros _. pose proof (len_nonneg acts). lia.
    + pose proof E as Hpos. apply count_pos_total in Hpos.
      apply Z.eqb_neq in E. pose proof (count_positive _ _ E) as Hinv.
      fold invalid in Hinv. fold acts in Hpos.
      split; [split|split].
      * intro H.
        pose proof (double_penalty_below_100 invalid (len acts) Hinv Hpos).
        lra.
      * intro H. contradiction.
      * intro H. contradiction.
      * now apply double_penalty_rounds_to_100.
Qed.

(* ================================================================== *)
(** ** Worked cases *)

(** With no activity at all the eight guarded metrics return their
    fallbacks and the two counting metrics return 100. *)
Example scores_without_activities :
  map (fun m => field (m (analyzer_of [])) "score")
      [DCMAAnalyzer._analyze_missing_logic; DCMAAnalyzer._analyze_leads;
       DCMAAnalyzer._analyze_lags; DCMAAnalyzer._analyze_relationship_types;
       DCMAAnalyzer._analyze_hard_constraints; DCMAAnalyzer._analyze_high_float;
       DCMAAnalyzer._analyze_negative_float; DCMAAnalyzer._analyze_high_duration;
       DCMAAnalyzer._analyze_invalid_dates; DCMAAnalyzer._analyze_resources]
  = [Some (Int 0); Some (Int 100); Some (Int 100); Some (Int 100);
     Some (Int 0); Some (Int 0); Some (Int 100); Some (Int 0);
     Some (Int 100); Some (Int 0)].
Proof. reflexivity. Qed.

(** One activity of twenty with a total float of -5: Negative Float
    scores 90. *)
Example negative_float_one_of_twenty :
  let r := DCMAAnalyzer._analyze_negative_float
             (analyzer_of (late_task :: repeat tied_task 19)) in
  field r "negativeFloatTasks" = Some (Int 1)
  /\ exists s, field r "score" = Some s /\ (num_val s == 90)%Q.
Proof.
  cbv zeta. split; [reflexivity|].
  eexists. split; [vm_compute; reflexivity | reflexivity].
Qed.

(** Every relationship Start-Start: Relationship Types scores 50, its
    lowest value on a schedule with relationships. *)
Example relationship_types_all_non_fs :
  let a := {| task_type := "TT_Task"; predecessors := [ss_link; ss_link];
              successors := []; total_float := None; duration := None;
              constraint_type := None; start := None; finish := None;
              resources := None |} in
  exists s,
    field (DCMAAnalyzer._analyze_relationship_types (analyzer_of [a])) "score"
    = Some s
    /\ (num_val s == 50)%Q.
Proof.
  cbv zeta. eexists. split; [vm_compute; reflexivity | reflexivity].
Qed.

(* ================================================================== *)
(** ** Further properties of the analyzer *)

Lemma metrics_of_counts (acts acts' : list Activity) :
  counts_of acts = counts_of acts' -> metrics_of acts = metrics_of acts'.
Proof.
  unfold counts_of. intro H.
  injection H as H1 H2 H3 H4 H5 H6 H7 H8 H9 H10 H11 H12 H13 H14.
  unfold metrics_of, missing_logic_raw, leads_raw, lags_raw,
    relationship_types_raw, hard_constraints_raw, high_float_raw,
    negative_float_raw, high_duration_raw, invalid_dates_raw, resources_raw.
  cbv zeta.
  rewrite H1, H2, H3, H4, H5, H6, H7, H8, H9, H10, H11, H12, H13, H14.
  reflexivity.
Qed.

Lemma metric_results_eq (self : DCMAAnalyzer.t) :
  metric_results self
  = map (fun km => Ok (snd km)) (metrics_of (DCMAAnalyzer.activities self)).
Proof.
  unfold metric_results, metric_methods. cbn [map].
  rewrite missing_logic_eq, leads_eq, lags_eq, relationship_types_eq,
    hard_constraints_eq, high_float_eq, negative_float_eq, high_duration_eq,
    invalid_dates_eq, resources_eq.
  reflexivity.
Qed.

Lemma analysis_determined_by_counts (self self' : DCMAAnalyzer.t) :
  counts_of (DCMAAnalyzer.activities self)
  = counts_of (DCMAAnalyzer.activities self') ->
  metric_results self = metric_results self'
  /\ forall utcnow,
       DCMAAnalyzer.analyze self utcnow = DCMAAnalyzer.analyze self' utcnow.
Proof.
  intro H. pose proof (metrics_of_counts _ _ H) as Hm. split.
  - rewrite !metric_results_eq. now rewrite Hm.
  - intro utcnow.
    assert (Hlen : len (DCMAAnalyzer.activities self)
                   = len (DCMAAnalyzer.activities self')).
    { unfold counts_of in H. now injection H. }
    destruct (DCMAAnalyzer.activities self) as [|a l] eqn:E.
    + assert (E' : DCMAAnalyzer.activities self' = []).
      { apply len_nil_iff. rewrite <- Hlen. reflexivity. }
      unfold DCMAAnalyzer.analyze. now rewrite E, E'.
    + assert (Hne : DCMAAnalyzer.activities self <> []) by (rewrite E; discriminate).
      assert (Hne' : DCMAAnalyzer.activities self' <> []).
      { intro E'. rewrite E' in Hlen. rewrite len_cons in Hlen.
        pose proof (len_nonneg l). change (len (@nil Activity)) with 0 in Hlen. lia. }
      destruct (analyze_eq self utcnow Hne) as [recs [Hr Ha]].
      destruct (analyze_eq self' utcnow Hne') as [recs' [Hr' Ha']].
      rewrite Ha, Ha'. rewrite E in *. rewrite <- Hm in *.
      rewrite (generate_depends_on_used_metrics self self' _ _ (fun _ _ => eq_refl)) in Hr'.
      rewrite Hr in Hr'. injection Hr' as <-.
      unfold scores_of. rewrite <- Hm, Hlen. reflexivity.
Qed.

Lemma filter_perm {A : Type} (p : A -> bool) (l l' : list A) :
  Permutation l l' -> Permutation (filter p l) (filter p l').
Proof.
  induction 1 as [|x l l' _ IH|x y l|l l' l'' _ IH1 _ IH2]; cbn [filter].
  - constructor.
  - destruct (p x); [now constructor | exact IH].
  - destruct (p x), (p y); try apply Permutation_refl. apply perm_swap.
  - now transitivity (filter p l').
Qed.

Lemma len_perm {A : Type} (l l' : list A) :
  Permutation l l' -> len l = len l'.
Proof. intro H. unfold len. now rewrite (Permutation_length H). Qed.

Lemma counts_of_perm (acts acts' : list Activity) :
  Permutation acts acts' -> counts_of acts = counts_of acts'.
Proof.
  intro H.
  assert (Hreg : Permutation (regular_activities acts) (regular_activities acts'))
    by now apply filter_perm.
  assert (Hrel : Permutation (relationships acts) (relationships acts'))
    by now apply Permutation_flat_map.
  unfold counts_of.
  repeat match goal with
         | |- _ :: _ = _ :: _ => f_equal
         end;
    apply len_perm; repeat apply filter_perm; assumption.
Qed.

(** X1.  The analysis does not depend on the order of the activities: two
    analyzers whose activity lists are permutations of each other get the
    same result from each of the ten metric methods and from [analyze]. *)
Theorem analysis_independent_of_order (self self' : DCMAAnalyzer.t) :
  Permutation (DCMAAnalyzer.activities self) (DCMAAnalyzer.activities self') ->
  metric_results self = metric_results self'
  /\ forall utcnow,
       DCMAAnalyzer.analyze self utcnow = DCMAAnalyzer.analyze self' utcnow.
Proof.
  intro H. apply analysis_determined_by_counts. now apply counts_of_perm.
Qed.

Lemma analysis_independent_of_order_witness :
  metric_results (analyzer_of [slack_task; late_task; lone_milestone])
  = metric_results (analyzer_of [late_task; lone_milestone; slack_task])
  /\ forall utcnow,
       DCMAAnalyzer.analyze (analyzer_of [slack_task; late_task; lone_milestone])
                            utcnow
       = DCMAAnalyzer.analyze
           (analyzer_of [late_task; lone_milestone; slack_task]) utcnow.
Proof.
  apply analysis_independent_of_order.
  apply (Permutation_cons_append [late_task; lone_milestone] slack_task).
Defined.


(** X2.  [__init__] flattens the projects: the analyzer's activities are
    those of the projects one after the other, their number is the sum of
    the sizes of the projects, and the metrics and the result of [analyze]
    are those of a single project holding all the activities. *)
Theorem analysis_of_flattened_projects (xer : Reader) (utcnow : string) :
  DCMAAnalyzer.activities (DCMAAnalyzer.__init__ xer)
  = List.concat (map Xer.activities (projects xer))
  /\ len (DCMAAnalyzer.activities (DCMAAnalyzer.__init__ xer))
     = sum_int (map (fun p => len (Xer.activities p)) (projects xer))
  /\ metric_results (DCMAAnalyzer.__init__ xer)
     = metric_results
         (analyzer_of (List.concat (map Xer.activities (projects xer))))
  /\ DCMAAnalyzer.analyze (DCMAAnalyzer.__init__ xer) utcnow
     = DCMAAnalyzer.analyze
         (analyzer_of (List.concat (map Xer.activities (projects xer)))) utcnow.
Proof.
  pose proof (init_activities xer) as H.
  split; [exact H|]. split.
  - rewrite H, sum_len_flat_map. now rewrite flat_map_concat_map.
  - destruct (analysis_determined_by_counts
                (DCMAAnalyzer.__init__ xer)
                (analyzer_of (List.concat (map Xer.activities (projects xer)))))
      as [Hm Ha].
    + now rewrite H, analyzer_of_activities.
    + split; [exact Hm | apply Ha].
Qed.


(** X3.  On a schedule with at least one activity the overall score
    returned by [analyze] lies between 0 and 100. *)
Theorem overall_score_bounded (self : DCMAAnalyzer.t) (utcnow : string) :
  DCMAAnalyzer.activities self <> [] ->
  exists o,
    overall_score (DCMAAnalyzer.analyze self utcnow) = Some o
    /\ (0 <= num_val o <= 100)%Q.
Proof.
  intro Hne. destruct (analyze_eq self utcnow Hne) as [recs [_ Ha]].
  rewrite Ha. eexists. split; [reflexivity|].
  cbn [num_val]. rewrite num_val_sum.
  set (acts := DCMAAnalyzer.activities self).
  pose proof (round2_in_range _ (missing_logic_raw_range acts)).
  pose proof (round2_in_range _ (leads_raw_range acts)).
  pose proof (round2_in_range _ (lags_raw_range acts)).
  pose proof (round2_in_range _ (relationship_types_raw_range acts)).
  pose proof (round2_in_range _ (hard_constraints_raw_range acts)).
  pose proof (round2_in_range _ (high_float_raw_range acts)).
  pose proof (round2_in_range _ (negative_float_raw_range acts)).
  pose proof (round2_in_range _ (high_duration_raw_range acts)).
  pose proof (round2_in_range _ (invalid_dates_raw_range acts)).
  pose proof (round2_in_range _ (resources_raw_range acts)).
  unfold scores_of, metrics_of, values, get.
  cbn [map snd lookup String.eqb Ascii.eqb Bool.eqb Qsum fold_right].
  change (inject_Z 10) with 10%Q.
  assert (Hd : forall x : Q, (x / 10 == x * (1 # 10))%Q) by (intro; reflexivity).
  rewrite Hd. lra.
Qed.

Lemma overall_score_bounded_witness :
  exists o,
    overall_score (DCMAAnalyzer.analyze (analyzer_of three_tasks)
                                        "2024-01-01T00:00:00") = Some o
    /\ (0 <= num_val o <= 100)%Q.
Proof.
  apply (overall_score_bounded (analyzer_of three_tasks) "2024-01-01T00:00:00").
  discriminate.
Defined.


Ltac split_rules :=
  repeat match goal with
         | |- context [if ?b then _ else _] => destruct b
         end.

(** X4.  Whatever metrics mapping it is given, when the generator returns
    its list has at most six entries, no category occurs twice, at most two
    entries have priority high, and every entry carries one of the six
    category and priority pairs of the rules. *)
Theorem recommendations_bounded
        (self : DCMAAnalyzer.t) (metrics : dict (dict num))
        (recs : list Recommendation) :
  DCMAAnalyzer._generate_recommendations self metrics = Ok recs ->
  (List.length recs <= 6)%nat
  /\ NoDup (map category recs)
  /\ len (filter (fun r => String.eqb (priority r) "high") recs) <= 2
  /\ (forall r, In r recs ->
        In (category r, priority r)
           [("Logic", "high"); ("Schedule", "high"); ("Float", "medium");
            ("Duration", "medium"); ("Constraints", "medium");
            ("Resources", "low")]).
Proof.
  intro H. apply headings_of_output in H.
  assert (Hlen : List.length recs = List.length (rule_table_headings metrics)).
  { rewrite <- H. now rewrite length_map. }
  assert (Hcat : map category recs = map fst (rule_table_headings metrics)).
  { rewrite <- H. rewrite map_map. reflexivity. }
  assert (Hhigh : len (filter (fun r => String.eqb (priority r) "high") recs)
                  = len (filter (fun h => String.eqb (snd h) "high")
                                (rule_table_headings metrics))).
  { unfold len. rewrite <- (length_map category), high_priority_headings, H.
    now rewrite length_map. }
  assert (Hin : forall r, In r recs ->
                  In (category r, priority r) (rule_table_headings metrics)).
  { intros r Hr. rewrite <- H.
    apply (in_map (fun r => (category r, priority r))). exact Hr. }
  rewrite Hlen, Hcat, Hhigh. clear Hlen Hcat Hhigh H.
  split; [|split; [|split]].
  - unfold rule_table_headings. split_rules; cbn; lia.
  - unfold rule_table_headings. split_rules; cbn [app map fst];
      repeat constructor; cbn [In]; intuition discriminate.
  - unfold rule_table_headings. split_rules; vm_compute; discriminate.
  - intros r Hr. apply Hin in Hr. revert Hr.
    unfold rule_table_headings. split_rules; cbn [app In]; intuition.
Qed.

Lemma recommendations_bounded_witness :
  (List.length scenario_e_recommendations <= 6)%nat
  /\ NoDup (map category scenario_e_recommendations)
  /\ len (filter (fun r => String.eqb (priority r) "high")
                 scenario_e_recommendations) <= 2
  /\ (forall r, In r scenario_e_recommendations ->
        In (category r, priority r)
           [("Logic", "high"); ("Schedule", "high"); ("Float", "medium");
            ("Duration", "medium"); ("Constraints", "medium");
            ("Resources", "low")]).
Proof.
  apply (recommendations_bounded (analyzer_of []) scenario_e). reflexivity.
Defined.


Lemma count_pos_iff {A : Type} (p : A -> bool) (l : list A) :
  0 < len (filter p l) <-> exists a, In a l /\ p a = true.
Proof.
  split.
  - destruct (filter p l) as [|a l'] eqn:E.
    + unfold len; cbn. lia.
    + intros _. exists a. apply filter_In. rewrite E. now left.
  - intros [a Ha]. apply filter_In in Ha.
    destruct (filter p l) as [|b l']; [contradiction|].
    rewrite len_cons. pose proof (len_nonneg l'). lia.
Qed.

Lemma gt_Int_0 (n : Z) : gt (Int n) (Int 0) = true <-> 0 < n.
Proof.
  unfold gt. rewrite Qlt_bool_iff. cbn [num_val]. now rewrite <- Zlt_Qlt.
Qed.

(** X5.  In the result of [analyze] on a schedule with activities, the
    Schedule recommendation is present exactly when some activity has a
    negative total float (whatever the Negative Float score rounds to), the
    Logic recommendation exactly when the Missing Logic score is below 80,
    and the summary counts no critical issue exactly when neither is
    present. *)
Theorem schedule_recommendation_iff_negative_float
        (self : DCMAAnalyzer.t) (utcnow : string) :
  DCMAAnalyzer.activities self <> [] ->
  exists recs summary,
    recommendations_of (DCMAAnalyzer.analyze self utcnow) = Some recs
    /\ summary_of (DCMAAnalyzer.analyze self utcnow) = Some summary
    /\ (In "Schedule" (map category recs)
        <-> exists a x, In a (DCMAAnalyzer.activities self)
                        /\ total_float a = Some x /\ (x < 0)%Q)
    /\ (In "Logic" (map category recs)
        <-> exists s, field (DCMAAnalyzer._analyze_missing_logic self) "score"
                      = Some s /\ (num_val s < 80)%Q)
    /\ (criticalIssues summary = 0
        <-> ~ In "Schedule" (map category recs)
            /\ ~ In "Logic" (map category recs)).
Proof.
  intro Hne. destruct (analyze_eq self utcnow Hne) as [recs [Hr Ha]].
  rewrite Ha. exists recs. eexists. split; [reflexivity|]. split; [reflexivity|].
  cbn [criticalIssues].
  pose proof (headings_of_output _ _ _ Hr) as Hh.
  assert (Hcat : map category recs
                 = map fst (rule_table_headings
                              (metrics_of (DCMAAnalyzer.activities self)))).
  { rewrite <- Hh, map_map. reflexivity. }
  assert (Hhigh : len (filter (fun r => String.eqb (priority r) "high") recs)
                  = len (filter (fun h => String.eqb (snd h) "high")
                                (rule_table_headings
                                   (metrics_of (DCMAAnalyzer.activities self))))).
  { unfold len. rewrite <- (length_map category), high_priority_headings, Hh.
    now rewrite length_map. }
  rewrite Hcat, Hhigh. clear Hcat Hhigh Hh Hr Ha.
  rewrite missing_logic_eq. cbn [field lookup String.eqb Ascii.eqb Bool.eqb].
  set (acts := DCMAAnalyzer.activities self).
  assert (Hneg : gt (Int (len (filter has_negative_float acts))) (Int 0) = true
                 <-> exists a x, In a acts /\ total_float a = Some x /\ (x < 0)%Q).
  { rewrite gt_Int_0, count_pos_iff. split.
    - intros [a [Hin Hp]]. apply has_negative_float_iff in Hp.
      destruct Hp as [x Hx]. now exists a, x.
    - intros [a [x [Hin Hx]]]. exists a. split; [exact Hin|].
      apply has_negative_float_iff. now exists x. }
  assert (Hlog : lt (round2 (missing_logic_raw acts)) (Int 80) = true
                 <-> exists s, Some (round2 (missing_logic_raw acts)) = Some s
                               /\ (num_val s < 80)%Q).
  { unfold lt. rewrite Qlt_bool_iff. cbn [num_val].
    change (inject_Z 80) with 80%Q. split.
    - intro H. eexists. split; [reflexivity | exact H].
    - intros [s [[= <-] H]]. exact H. }
  rewrite <- Hneg, <- Hlog. clear Hneg Hlog.
  unfold rule_table_headings, rule_fires, DCMAAnalyzer.getitem2, getitem,
    metrics_of.
  cbn [lookup String.eqb Ascii.eqb Bool.eqb Py.bind].
  fold acts.
  destruct (lt (round2 (missing_logic_raw acts)) (Int 80));
    destruct (gt (Int (len (filter has_negative_float acts))) (Int 0));
    split_rules;
    cbn [app map fst snd filter In String.eqb Ascii.eqb Bool.eqb len List.length];
    (split; [|split]); split; intros; try tauto; try discriminate;
    try (intuition discriminate); try (exfalso; intuition congruence).
Qed.

Lemma schedule_recommendation_iff_negative_float_witness :
  exists recs summary,
    recommendations_of
      (DCMAAnalyzer.analyze (analyzer_of [late_task; tied_task]) "now")
    = Some recs
    /\ summary_of
         (DCMAAnalyzer.analyze (analyzer_of [late_task; tied_task]) "now")
       = Some summary
    /\ In "Schedule" (map category recs)
    /\ criticalIssues summary <> 0.
Proof.
  destruct (schedule_recommendation_iff_negative_float
              (analyzer_of [late_task; tied_task]) "now")
    as [recs [summary [Hr [Hs [Hsched [_ Hcrit]]]]]].
  { discriminate. }
  exists recs, summary. split; [exact Hr|]. split; [exact Hs|].
  assert (H : In "Schedule" (map category recs)).
  { apply Hsched. exists late_task, (-5)%Q.
    split; [now left|]. split; reflexivity. }
  split; [exact H|]. intro E. apply Hcrit in E. tauto.
Defined.


Lemma penalty_score_bottom (n total w : Z) :
  total > 0 -> 0 < w -> 100 * total <= w * n ->
  penalty_score n total w = Int 0.
Proof.
  intros Ht Hw H.
  destruct (penalty_score_cases n total w) as [[_ E]|[Hx _]]; [exact E|].
  exfalso.
  assert (HT : (0 < inject_Z total)%Q).
  { change 0%Q with (inject_Z 0). rewrite <- Zlt_Qlt. lia. }
  assert (HW : (0 < inject_Z w)%Q).
  { change 0%Q with (inject_Z 0). rewrite <- Zlt_Qlt. lia. }
  assert (Hq : (inject_Z n == inject_Z n / inject_Z total * inject_Z total)%Q).
  { field. lra. }
  rewrite Zle_Qle, !inject_Z_mult in H. change (inject_Z 100) with 100%Q in H.
  set (q := (inject_Z n / inject_Z total)%Q) in *.
  assert (Hqw : (q * inject_Z w < 100)%Q) by lra.
  assert (Hm : (q * inject_Z w * inject_Z total < 100 * inject_Z total)%Q).
  { apply Qmult_lt_compat_r; assumption. }
  assert (Hr : (inject_Z w * inject_Z n == q * inject_Z w * inject_Z total)%Q).
  { rewrite Hq at 1. ring. }
  lra.
Qed.

(** X6.  The clamp at 0 is reached.  Missing Logic returns the score 0 as
    soon as its two counts add up to the number of activities it looks at
    (an activity with neither predecessor nor successor is counted twice),
    and Negative Float and Invalid Dates return 0 as soon as half of all
    activities are counted. *)
Theorem penalty_scores_bottom_out (self : DCMAAnalyzer.t) :
  (forall wp ws tot,
      let r := DCMAAnalyzer._analyze_missing_logic self in
      field r "tasksWithoutPredecessors" = Some (Int wp) ->
      field r "tasksWithoutSuccessors" = Some (Int ws) ->
      field r "totalTasks" = Some (Int tot) ->
      tot > 0 -> tot <= wp + ws ->
      field r "score" = Some (Int 0))
  /\ (forall n tot,
         let r := DCMAAnalyzer._analyze_negative_float self in
         field r "negativeFloatTasks" = Some (Int n) ->
         field r "totalTasks" = Some (Int tot) ->
         tot > 0 -> tot <= 2 * n ->
         field r "score" = Some (Int 0))
  /\ (forall n tot,
         let r := DCMAAnalyzer._analyze_invalid_dates self in
         field r "invalidDates" = Some (Int n) ->
         field r "totalTasks" = Some (Int tot) ->
         tot > 0 -> tot <= 2 * n ->
         field r "score" = Some (Int 0)).
Proof.
  rewrite missing_logic_eq, negative_float_eq, invalid_dates_eq.
  cbn [field lookup String.eqb Ascii.eqb Bool.eqb].
  unfold missing_logic_raw, negative_float_raw, invalid_dates_raw.
  cbv zeta.
  split; [|split].
  - intros wp ws tot [= <-] [= <-] [= <-] Hpos Hn.
    assert (E : (len (regular_activities (DCMAAnalyzer.activities self)) >? 0)
                = true) by (apply Z.gtb_gt; lia).
    rewrite E, penalty_score_bottom; [reflexivity | lia | lia | lia].
  - intros n tot [= <-] [= <-] Hpos Hn.
    assert (E : (len (filter has_negative_float (DCMAAnalyzer.activities self))
                 =? 0) = false) by (apply Z.eqb_neq; lia).
    rewrite E, penalty_score_bottom; [reflexivity | lia | lia | lia].
  - intros n tot [= <-] [= <-] Hpos Hn.
    assert (E : (len (filter has_invalid_dates (DCMAAnalyzer.activities self))
                 =? 0) = false) by (apply Z.eqb_neq; lia).
    rewrite E, penalty_score_bottom; [reflexivity | lia | lia | lia].
Qed.

(** Two isolated tasks among four, one late task of two, one backwards
    task of two. *)
Lemma penalty_scores_bottom_out_witness :
  field (DCMAAnalyzer._analyze_missing_logic
           (analyzer_of [undated_task; undated_task; tied_task; tied_task]))
        "score" = Some (Int 0)
  /\ field (DCMAAnalyzer._analyze_negative_float
              (analyzer_of [late_task; tied_task])) "score" = Some (Int 0)
  /\ field (DCMAAnalyzer._analyze_invalid_dates
              (analyzer_of [backwards_task; tied_task])) "score" = Some (Int 0).
Proof.
  split; [|split].
  - apply (proj1 (penalty_scores_bottom_out
                    (analyzer_of [undated_task; undated_task; tied_task; tied_task]))
                 2 2 4); try reflexivity; lia.
  - apply (proj1 (proj2 (penalty_scores_bottom_out
                           (analyzer_of [late_task; tied_task]))) 1 2);
      try reflexivity; lia.
  - apply (proj2 (proj2 (penalty_scores_bottom_out
                           (analyzer_of [backwards_task; tied_task]))) 1 2);
      try reflexivity; lia.
Defined.


Lemma disjoint_counts {A : Type} (p q : A -> bool) (l : list A) :
  (forall a, p a && q a = false) ->
  len (filter p l) + len (filter q l) <= len l.
Proof.
  intro H. induction l as [|a l IH]; cbn [filter].
  - unfold len; cbn. lia.
  - specialize (H a). rewrite len_cons.
    destruct (p a), (q a); try discriminate; rewrite ?len_cons; lia.
Qed.

Lemma and_num_disjoint (x : option Q) (lo hi : Q) :
  (lo <= hi)%Q ->
  and_num x (fun v => Qlt_bool hi v) && and_num x (fun v => Qlt_bool v lo) = false.
Proof.
  intro H. unfold and_num. destruct x as [v|]; [|reflexivity].
  destruct (Qlt_bool hi v) eqn:E1, (Qlt_bool v lo) eqn:E2;
    rewrite ?andb_false_r, ?andb_true_r; try reflexivity.
  apply Qlt_bool_iff in E1, E2. exfalso. lra.
Qed.

(** X7.  No activity is counted both by High Float and by Negative Float,
    and no relationship both as a lead and as an excessive lag: the two
    counts of each pair are not negative and add up to at most the total
    the methods report. *)
Theorem float_and_lag_counts_disjoint (self : DCMAAnalyzer.t) :
  (forall hf nf tot,
      field (DCMAAnalyzer._analyze_high_float self) "highFloatTasks" = Some (Int hf) ->
      field (DCMAAnalyzer._analyze_negative_float self) "negativeFloatTasks"
      = Some (Int nf) ->
      field (DCMAAnalyzer._analyze_high_float self) "totalTasks" = Some (Int tot) ->
      0 <= hf /\ 0 <= nf /\ hf + nf <= tot)
  /\ (forall ld lg tot,
         field (DCMAAnalyzer._analyze_leads self) "leadsFound" = Some (Int ld) ->
         field (DCMAAnalyzer._analyze_lags self) "excessiveLags" = Some (Int lg) ->
         field (DCMAAnalyzer._analyze_leads self) "totalRelationships"
         = Some (Int tot) ->
         0 <= ld /\ 0 <= lg /\ ld + lg <= tot).
Proof.
  rewrite high_float_eq, negative_float_eq, leads_eq, lags_eq.
  cbn [field lookup String.eqb Ascii.eqb Bool.eqb].
  split.
  - intros hf nf tot [= <-] [= <-] [= <-].
    split; [apply len_nonneg|]. split; [apply len_nonneg|].
    apply disjoint_counts. intro a. unfold has_high_float, has_negative_float.
    apply and_num_disjoint. lra.
  - intros ld lg tot [= <-] [= <-] [= <-].
    split; [apply len_nonneg|]. split; [apply len_nonneg|].
    rewrite Z.add_comm.
    apply disjoint_counts. intro a. unfold is_lead, is_excessive_lag.
    apply and_num_disjoint. lra.
Qed.

(** One slack task, one late task and one task without float. *)
Lemma float_and_lag_counts_disjoint_witness :
  0 <= 1 /\ 0 <= 1 /\ 1 + 1 <= 3.
Proof.
  apply (proj1 (float_and_lag_counts_disjoint
                  (analyzer_of [slack_task; late_task; tied_task])) 1 1 3);
    reflexivity.
Defined.


(** A comparison of rationals, as the order fact it stands for. *)
Ltac compare_fact H :=
  match type of H with
  | (_ ?= _)%Q = Eq => apply Qeq_alt in H
  | (_ ?= _)%Q = Lt => apply Qlt_alt in H
  | (_ ?= _)%Q = Gt => apply Qgt_alt in H
  end.

Lemma round_half_even_mono (x y : Q) :
  (x <= y)%Q -> round_half_even x <= round_half_even y.
Proof.
  intro H.
  pose proof (Qfloor_resp_le _ _ H) as Hf.
  pose proof (round_half_even_floor x) as [_ Hx].
  pose proof (round_half_even_floor y) as [Hy _].
  destruct (Z.eq_dec (Qfloor x) (Qfloor y)) as [E|NE]; [|lia].
  clear Hx Hy Hf. unfold round_half_even. rewrite E.
  destruct (x - inject_Z (Qfloor y) ?= 1 # 2)%Q eqn:Ex;
    destruct (y - inject_Z (Qfloor y) ?= 1 # 2)%Q eqn:Ey;
    compare_fact Ex; compare_fact Ey;
    try (destruct (Z.even (Qfloor y))); try lia; exfalso; lra.
Qed.

Lemma round2_mono (x y : num) :
  (num_val x <= num_val y)%Q -> (num_val (round2 x) <= num_val (round2 y))%Q.
Proof.
  destruct x as [a|p], y as [b|q]; intro H.
  - exact H.
  - apply (round2_ge a (Float q)). exact H.
  - apply (round2_le b (Float p)). exact H.
  - cbn [round2 num_val] in *.
    assert (Hm : (p * 100 <= q * 100)%Q) by lra.
    apply round_half_even_mono in Hm. rewrite Zle_Qle in Hm.
    rewrite !Qdiv_100. lra.
Qed.

Lemma ratio_antitone (n total total' : Z) :
  0 <= n -> 0 < total -> total <= total' ->
  (inject_Z n / inject_Z total' <= inject_Z n / inject_Z total)%Q.
Proof.
  intros Hn Ht Hle.
  assert (HT : (0 < inject_Z total)%Q).
  { change 0%Q with (inject_Z 0). rewrite <- Zlt_Qlt. lia. }
  assert (HT' : (0 < inject_Z total')%Q).
  { change 0%Q with (inject_Z 0). rewrite <- Zlt_Qlt. lia. }
  assert (Hle' : (inject_Z total <= inject_Z total')%Q) by (rewrite <- Zle_Qle; exact Hle).
  pose proof (ratio_nonneg n total Hn ltac:(lia)) as Hq.
  apply Qle_shift_div_r; [exact HT'|].
  set (q := (inject_Z n / inject_Z total)%Q) in *.
  assert (Hn' : (inject_Z n == q * inject_Z total)%Q) by (unfold q; field; lra).
  assert (Hm : (q * inject_Z total <= q * inject_Z total')%Q).
  { rewrite !(Qmult_comm q). apply Qmult_le_compat_r; assumption. }
  lra.
Qed.

Lemma penalty_score_dilution (n total total' w : Z) :
  0 <= n -> 0 < total -> total <= total' -> 0 <= w ->
  (num_val (penalty_score n total w) <= num_val (penalty_score n total' w))%Q.
Proof.
  intros Hn Ht Hle Hw.
  pose proof (ratio_antitone n total total' Hn Ht Hle) as Hr.
  assert (HW : (0 <= inject_Z w)%Q).
  { change 0%Q with (inject_Z 0). rewrite <- Zle_Qle. exact Hw. }
  assert (Hm : (inject_Z n / inject_Z total' * inject_Z w
                <= inject_Z n / inject_Z total * inject_Z w)%Q).
  { apply Qmult_le_compat_r; assumption. }
  destruct (penalty_score_cases n total w) as [[H1 ->]|[H1 ->]];
    destruct (penalty_score_cases n total' w) as [[H2 ->]|[H2 ->]];
    cbn [num_val]; change (inject_Z 0) with 0%Q; lra.
Qed.


Lemma guarded_penalty_dilution (n total w : Z) :
  0 <= n -> 0 <= total -> 0 <= w ->
  (num_val (if total >? 0 then penalty_score n total w else Int 0)
   <= num_val (if total + 1 >? 0 then penalty_score n (total + 1) w else Int 0))%Q.
Proof.
  intros Hn Ht Hw.
  assert (E' : (total + 1 >? 0) = true) by (apply Z.gtb_gt; lia). rewrite E'.
  destruct (total >? 0) eqn:E.
  - apply gtb_pos in E. apply penalty_score_dilution; lia.
  - apply (penalty_score_range n (total + 1) w); lia.
Qed.

Lemma counted_penalty_dilution (n total : Z) :
  0 <= n <= total ->
  (num_val (if n =? 0 then Int 100 else penalty_score n total 200)
   <= num_val (if n =? 0 then Int 100 else penalty_score n (total + 1) 200))%Q.
Proof.
  intros [Hn Hle]. destruct (n =? 0) eqn:E.
  - apply Qle_refl.
  - apply Z.eqb_neq in E. apply penalty_score_dilution; lia.
Qed.

(** X8.  Adding an activity that a metric does not count never lowers the
    score of that metric, since it only adds to the denominator: an activity
    without total float for High Float and Negative Float, without duration
    for High Duration, without constraint for Hard Constraints, and without
    start or without finish for Invalid Dates. *)
Theorem uncounted_activity_never_lowers_score
        (self self' : DCMAAnalyzer.t) (l1 l2 : list Activity) (a : Activity) :
  DCMAAnalyzer.activities self = l1 ++ l2 ->
  DCMAAnalyzer.activities self' = l1 ++ a :: l2 ->
  (total_float a = None ->
   score_le (DCMAAnalyzer._analyze_high_float self)
            (DCMAAnalyzer._analyze_high_float self')
   /\ score_le (DCMAAnalyzer._analyze_negative_float self)
               (DCMAAnalyzer._analyze_negative_float self'))
  /\ (duration a = None ->
      score_le (DCMAAnalyzer._analyze_high_duration self)
               (DCMAAnalyzer._analyze_high_duration self'))
  /\ (constraint_type a = None ->
      score_le (DCMAAnalyzer._analyze_hard_constraints self)
               (DCMAAnalyzer._analyze_hard_constraints self'))
  /\ (start a = None \/ finish a = None ->
      score_le (DCMAAnalyzer._analyze_invalid_dates self)
               (DCMAAnalyzer._analyze_invalid_dates self')).
Proof.
  intros H H'.
  assert (Hlen : len (l1 ++ a :: l2) = len (l1 ++ l2) + 1).
  { rewrite !len_app, len_cons. lia. }
  unfold score_le.
  rewrite high_float_eq, negative_float_eq, high_duration_eq,
    hard_constraints_eq, invalid_dates_eq.
  rewrite (high_float_eq self'), (negative_float_eq self'),
    (high_duration_eq self'), (hard_constraints_eq self'),
    (invalid_dates_eq self').
  cbn [field lookup String.eqb Ascii.eqb Bool.eqb]. rewrite H, H'.
  unfold high_float_raw, negative_float_raw, high_duration_raw,
    hard_constraints_raw, invalid_dates_raw.
  split; [|split; [|split]].
  - intro Hf. split.
    + do 2 eexists. split; [reflexivity|]. split; [reflexivity|].
      apply round2_mono.
      rewrite (filter_skip has_high_float), Hlen
        by (unfold has_high_float; now rewrite Hf).
      apply guarded_penalty_dilution; try lia; apply len_nonneg.
    + do 2 eexists. split; [reflexivity|]. split; [reflexivity|].
      apply round2_mono.
      rewrite (filter_skip has_negative_float), Hlen
        by (unfold has_negative_float; now rewrite Hf).
      apply counted_penalty_dilution.
      split; [apply len_nonneg | apply len_filter_le].
  - intro Hd. do 2 eexists. split; [reflexivity|]. split; [reflexivity|].
    apply round2_mono.
    rewrite (filter_skip has_high_duration), Hlen
      by (unfold has_high_duration; now rewrite Hd).
    apply guarded_penalty_dilution; try lia; apply len_nonneg.
  - intro Hc. do 2 eexists. split; [reflexivity|]. split; [reflexivity|].
    apply round2_mono.
    rewrite (filter_skip has_hard_constraint), Hlen
      by (unfold has_hard_constraint; now rewrite Hc).
    apply guarded_penalty_dilution; try lia; apply len_nonneg.
  - intro Hs. do 2 eexists. split; [reflexivity|]. split; [reflexivity|].
    apply round2_mono.
    rewrite (filter_skip has_invalid_dates), Hlen.
    + apply counted_penalty_dilution.
      split; [apply len_nonneg | apply len_filter_le].
    + unfold has_invalid_dates. destruct Hs as [-> | ->]; [reflexivity|].
      now destruct (start a).
Qed.

Lemma uncounted_activity_never_lowers_score_witness :
  score_le (DCMAAnalyzer._analyze_invalid_dates
              (analyzer_of [backwards_task; tied_task; tied_task]))
           (DCMAAnalyzer._analyze_invalid_dates
              (analyzer_of [backwards_task; tied_task; undated_task; tied_task])).
Proof.
  apply (uncounted_activity_never_lowers_score
           (analyzer_of [backwards_task; tied_task; tied_task])
           (analyzer_of [backwards_task; tied_task; undated_task; tied_task])
           [backwards_task; tied_task] [tied_task] undated_task
           eq_refl eq_refl).
  left. reflexivity.
Defined.


Lemma filter_map_commute {A : Type} (f : A -> A) (p : A -> bool) (l : list A) :
  (forall a, p (f a) = p a) -> filter p (map f l) = map f (filter p l).
Proof.
  intro H. induction l as [|a l IH]; cbn [map filter]; [reflexivity|].
  rewrite H. destruct (p a); cbn [map]; now rewrite IH.
Qed.

Lemma len_map {A B : Type} (f : A -> B) (l : list A) : len (map f l) = len l.
Proof. unfold len. now rewrite length_map. Qed.

Lemma count_map {A : Type} (f : A -> A) (p : A -> bool) (l : list A) :
  (forall a, p (f a) = p a) -> len (filter p (map f l)) = len (filter p l).
Proof. intro H. now rewrite filter_map_commute, len_map. Qed.

Section MappedSchedule.

Variable f : Activity -> Activity.
Variable g : Relationship -> Relationship.

Hypothesis f_predecessors : forall a, predecessors (f a) = map g (predecessors a).
Hypothesis g_lead : forall r, is_lead (g r) = is_lead r.
Hypothesis g_lag : forall r, is_excessive_lag (g r) = is_excessive_lag r.
Hypothesis g_non_fs : forall r, is_non_fs (g r) = is_non_fs r.
Hypothesis f_constraint : forall a, has_hard_constraint (f a) = has_hard_constraint a.
Hypothesis f_high_float : forall a, has_high_float (f a) = has_high_float a.
Hypothesis f_negative_float : forall a, has_negative_float (f a) = has_negative_float a.
Hypothesis f_high_duration : forall a, has_high_duration (f a) = has_high_duration a.
Hypothesis f_invalid_dates : forall a, has_invalid_dates (f a) = has_invalid_dates a.
Hypothesis f_resources : forall a, has_resources (f a) = has_resources a.

Lemma relationships_map (l : list Activity) :
  relationships (map f l) = map g (relationships l).
Proof.
  unfold relationships. induction l as [|a l IH]; cbn [map flat_map]; [reflexivity|].
  now rewrite IH, f_predecessors, map_app.
Qed.

Lemma other_counts_map (l : list Activity) :
  len (map f l) = len l
  /\ skipn 4 (counts_of (map f l)) = skipn 4 (counts_of l).
Proof.
  split; [apply len_map|].
  unfold counts_of. cbn [skipn].
  rewrite relationships_map, len_map, !count_map by assumption.
  reflexivity.
Qed.

Hypothesis f_milestone : forall a, is_milestone (f a) = is_milestone a.
Hypothesis f_lacks_pred : forall a, lacks_predecessors (f a) = lacks_predecessors a.
Hypothesis f_lacks_succ : forall a, lacks_successors (f a) = lacks_successors a.

Lemma counts_map (l : list Activity) : counts_of (map f l) = counts_of l.
Proof.
  assert (Hreg : regular_activities (map f l) = map f (regular_activities l)).
  { unfold regular_activities. apply filter_map_commute.
    intro a. now rewrite f_milestone. }
  unfold counts_of.
  rewrite Hreg, relationships_map, !len_map, !count_map by assumption.
  reflexivity.
Qed.

End MappedSchedule.

Lemma other_metrics_of_counts (acts acts' : list Activity) :
  len acts = len acts' ->
  skipn 4 (counts_of acts) = skipn 4 (counts_of acts') ->
  tl (metrics_of acts) = tl (metrics_of acts').
Proof.
  unfold counts_of. cbn [skipn]. intros H1 H.
  injection H as H5 H6 H7 H8 H9 H10 H11 H12 H13 H14.
  unfold metrics_of, leads_raw, lags_raw,
    relationship_types_raw, hard_constraints_raw, high_float_raw,
    negative_float_raw, high_duration_raw, invalid_dates_raw, resources_raw.
  cbn [tl].
  rewrite H1, H5, H6, H7, H8, H9, H10, H11, H12, H13, H14.
  reflexivity.
Qed.

Lemma and_num_drop_zero (x : option Q) (p : Q -> bool) :
  and_num (drop_zero x) p = and_num x p.
Proof.
  unfold and_num, drop_zero, truthy_num. destruct x as [q|]; [|reflexivity].
  destruct (Qeq_bool q 0) eqn:E; [reflexivity|]. cbn. now rewrite E.
Qed.

(** X9.  A total float, a duration or a lag equal to zero is read like an
    absent one: replacing every such zero by [None] changes neither the
    results of the ten metric methods nor the result of [analyze]. *)
Theorem zero_attributes_read_as_absent (self self' : DCMAAnalyzer.t) :
  DCMAAnalyzer.activities self'
  = map zero_as_absent (DCMAAnalyzer.activities self) ->
  metric_results self' = metric_results self
  /\ forall utcnow,
       DCMAAnalyzer.analyze self' utcnow = DCMAAnalyzer.analyze self utcnow.
Proof.
  intro H. apply analysis_determined_by_counts. rewrite H.
  apply (counts_map zero_as_absent zero_lag_as_absent); try reflexivity.
  - intro r. unfold is_lead. cbn [zero_lag_as_absent lag]. apply and_num_drop_zero.
  - intro r. unfold is_excessive_lag. cbn [zero_lag_as_absent lag].
    apply and_num_drop_zero.
  - intro a. unfold has_high_float. cbn [zero_as_absent total_float].
    apply and_num_drop_zero.
  - intro a. unfold has_negative_float. cbn [zero_as_absent total_float].
    apply and_num_drop_zero.
  - intro a. unfold has_high_duration. cbn [zero_as_absent duration].
    apply and_num_drop_zero.
  - intro a. unfold lacks_predecessors. cbn [zero_as_absent predecessors].
    now destruct (predecessors a).
  - intro a. unfold lacks_successors. cbn [zero_as_absent successors].
    now destruct (successors a).
Qed.

Lemma zero_attributes_read_as_absent_witness :
  let zero_task :=
    {| task_type := "TT_Task";
       predecessors := [{| link := "PR_SS"; lag := Some 0%Q |}];
       successors := []; total_float := Some 0%Q; duration := Some 0%Q;
       constraint_type := None; start := None; finish := None;
       resources := None |} in
  metric_results (analyzer_of [zero_as_absent zero_task; late_task])
  = metric_results (analyzer_of [zero_task; late_task])
  /\ forall utcnow,
       DCMAAnalyzer.analyze (analyzer_of [zero_as_absent zero_task; late_task])
                            utcnow
       = DCMAAnalyzer.analyze (analyzer_of [zero_task; late_task]) utcnow.
Proof.
  cbv zeta. apply zero_attributes_read_as_absent. reflexivity.
Defined.

Lemma tl_map {A B : Type} (f : A -> B) (l : list A) :
  tl (map f l) = map f (tl l).
Proof. now destruct l. Qed.

(** X10.  Only Missing Logic reads the task type: whatever types the
    activities are given, milestone types included, the results of the
    other nine metric methods stay the same. *)
Theorem task_type_read_by_missing_logic_only
        (self self' : DCMAAnalyzer.t) (retype : Activity -> string) :
  DCMAAnalyzer.activities self'
  = map (fun a => with_task_type (retype a) a) (DCMAAnalyzer.activities self) ->
  tl (metric_results self') = tl (metric_results self).
Proof.
  intro H. rewrite !metric_results_eq, H.
  rewrite !tl_map.
  f_equal. apply other_metrics_of_counts;
    apply (other_counts_map (fun a => with_task_type (retype a) a) (fun r => r));
    try reflexivity; intro a; now rewrite map_id.
Qed.

Lemma task_type_read_by_missing_logic_only_witness :
  tl (metric_results
        (analyzer_of [with_task_type "TT_Mile" slack_task;
                      with_task_type "TT_Mile" late_task]))
  = tl (metric_results (analyzer_of [slack_task; late_task])).
Proof.
  apply (task_type_read_by_missing_logic_only
           (analyzer_of [slack_task; late_task])
           (analyzer_of [with_task_type "TT_Mile" slack_task;
                         with_task_type "TT_Mile" late_task])
           (fun _ => "TT_Mile")).
  reflexivity.
Defined.

(** X11.  Resources is the one metric without clamp and without penalty:
    its score and its ['resourceAssignmentRate'] are the same number, the
    count of activities with resources is between 0 and the total, and with
    activities in the schedule the score is within 0.005 of
    [100 * count / total]; it is 100 when every activity has resources and
    0 when none has. *)
Theorem resources_score_is_assignment_rate (self : DCMAAnalyzer.t) :
  let r := DCMAAnalyzer._analyze_resources self in
  field r "score" = field r "resourceAssignmentRate"
  /\ forall n tot,
       field r "tasksWithResources" = Some (Int n) ->
       field r "totalTasks" = Some (Int tot) ->
       0 <= n <= tot
       /\ (tot > 0 ->
           exists s,
             field r "score" = Some s
             /\ (100 * inject_Z n / inject_Z tot - (1 # 200) <= num_val s
                 <= 100 * inject_Z n / inject_Z tot + (1 # 200))%Q
             /\ (n = tot -> (num_val s == 100)%Q)
             /\ (n = 0 -> (num_val s == 0)%Q)).
Proof.
  intro r. subst r. rewrite resources_eq.
  cbn [field lookup String.eqb Ascii.eqb Bool.eqb].
  split; [reflexivity|].
  intros n tot [= <-] [= <-].
  set (acts := DCMAAnalyzer.activities self).
  split; [split; [apply len_nonneg | apply len_filter_le]|].
  intro Hpos. eexists. split; [reflexivity|].
  unfold resources_raw. fold acts.
  assert (E : (len acts >? 0) = true) by (apply Z.gtb_gt; lia). rewrite E.
  cbn [mul num_val].
  set (q := (inject_Z (len (filter has_resources acts)) / inject_Z (len acts))%Q).
  assert (HT : (0 < inject_Z (len acts))%Q).
  { change 0%Q with (inject_Z 0). rewrite <- Zlt_Qlt. lia. }
  assert (Hq : (100 * inject_Z (len (filter has_resources acts))
                / inject_Z (len acts) == q * inject_Z 100)%Q).
  { unfold q. change (inject_Z 100) with 100%Q. field. lra. }
  rewrite Hq. split; [apply (round2_near (Float (q * inject_Z 100)))|].
  split.
  - intro Hall.
    assert (Hone : (q == 1)%Q).
    { unfold q. rewrite Hall. field. lra. }
    assert (Hv : (q * inject_Z 100 * 100 == inject_Z 10000)%Q).
    { rewrite Hone. reflexivity. }
    cbn [round2 num_val]. unfold round_half_even.
    rewrite (Qfloor_comp _ _ Hv), Qfloor_Z.
    assert (Hc : (q * inject_Z 100 * 100 - inject_Z 10000 < 1 # 2)%Q)
      by (rewrite Hv; reflexivity).
    rewrite (proj1 (Qlt_alt _ _) Hc). reflexivity.
  - intro Hnone.
    assert (Hzero : (q == 0)%Q).
    { unfold q. rewrite Hnone. field. lra. }
    assert (Hv : (q * inject_Z 100 * 100 == inject_Z 0)%Q).
    { rewrite Hzero. reflexivity. }
    cbn [round2 num_val]. unfold round_half_even.
    rewrite (Qfloor_comp _ _ Hv), Qfloor_Z.
    assert (Hc : (q * inject_Z 100 * 100 - inject_Z 0 < 1 # 2)%Q)
      by (rewrite Hv; reflexivity).
    rewrite (proj1 (Qlt_alt _ _) Hc). reflexivity.
Qed.

(** Two activities of four with resources: the rate is 50. *)
Lemma resources_score_is_assignment_rate_witness :
  let staffed := {| task_type := "TT_Task"; predecessors := [];
                    successors := []; total_float := None; duration := None;
                    constraint_type := None; start := None; finish := None;
                    resources := Some ["R1"] |} in
  let r := DCMAAnalyzer._analyze_resources
             (analyzer_of [staffed; tied_task; staffed; tied_task]) in
  exists s,
    field r "score" = Some s
    /\ (100 * inject_Z 2 / inject_Z 4 - (1 # 200) <= num_val s
        <= 100 * inject_Z 2 / inject_Z 4 + (1 # 200))%Q.
Proof.
  cbv zeta.
  destruct (proj2 (resources_score_is_assignment_rate
                     (analyzer_of
                        [{| task_type := "TT_Task"; predecessors := [];
                            successors := []; total_float := None;
                            duration := None; constraint_type := None;
                            start := None; finish := None;
                            resources := Some ["R1"] |}; tied_task;
                         {| task_type := "TT_Task"; predecessors := [];
                            successors := []; total_float := None;
                            duration := None; constraint_type := None;
                            start := None; finish := None;
                            resources := Some ["R1"] |}; tied_task]))
                  2 4 eq_refl eq_refl) as [_ H].
  destruct (H ltac:(lia)) as [s [Hs [Hnear _]]].
  exists s. split; [exact Hs | exact Hnear].
Defined.

(* ================================================================== *)
(** ** Properties of the endpoints *)

Section EndpointFacts.

Import Service.

Variable read : string -> outcome Service.Reader.
Variable len_projects : Service.Reader -> outcome Z.
Variable format_exc : Exc -> string.
Variable isoformat : Z -> string.

Lemma fold_left_snoc {A B : Type} (f : A -> B) (l : list A) (acc : list B) :
  fold_left (fun acc x => acc ++ [f x]) l acc = acc ++ map f l.
Proof.
  revert acc. induction l as [|x l IH]; intro acc; cbn [fold_left map].
  - now rewrite app_nil_r.
  - rewrite IH, <- app_assoc. reflexivity.
Qed.

Lemma task_rows_from (ps : list Service.Project) (acc : list json) :
  fold_left
    (fun tasks project =>
       fold_left (fun tasks activity => tasks ++ [task_row isoformat activity])
                 (firstn 500 (Service.activities project)) tasks)
    ps acc
  = acc ++ flat_map (fun p => map (task_row isoformat)
                                  (firstn 500 (Service.activities p))) ps.
Proof.
  revert acc. induction ps as [|p ps IH]; intro acc; cbn [fold_left flat_map].
  - now rewrite app_nil_r.
  - rewrite (fold_left_snoc (task_row isoformat)), IH, app_assoc. reflexivity.
Qed.

Lemma task_rows_eq (xer : Service.Reader) :
  task_rows isoformat xer
  = flat_map (fun p => map (task_row isoformat) (firstn 500 (Service.activities p)))
             (Service.projects xer).
Proof. unfold task_rows. now rewrite task_rows_from. Qed.

Lemma analyzer_view_activities (xer : Service.Reader) :
  DCMAAnalyzer.activities (DCMAAnalyzer.__init__ (analyzer_view xer))
  = map view (flat_map Service.activities (Service.projects xer)).
Proof.
  rewrite init_activities. unfold analyzer_view. cbn [Xer.projects].
  induction (Service.projects xer) as [|p ps IH]; cbn [map List.concat flat_map].
  - reflexivity.
  - rewrite IH, map_app. reflexivity.
Qed.

Lemma analyze_returns (self : DCMAAnalyzer.t) (utcnow : string) :
  exists d, DCMAAnalyzer.analyze self utcnow = Ok d.
Proof.
  destruct (DCMAAnalyzer.activities self) as [|a l] eqn:E.
  - unfold DCMAAnalyzer.analyze. rewrite E. eexists. reflexivity.
  - destruct (analyze_eq self utcnow) as [recs [_ H]].
    + rewrite E. discriminate.
    + eexists. exact H.
Qed.


Lemma analyze_xer_parsed (bytes : string) (xer : Service.Reader)
      (analyzedAt parsedAt : string) :
  read bytes = Return xer ->
  exists d,
    DCMAAnalyzer.analyze (DCMAAnalyzer.__init__ (analyzer_view xer)) analyzedAt
    = Ok d
    /\ analyze_xer read format_exc isoformat (Json (Return bytes))
                   analyzedAt parsedAt
       = (JDict [("success", JBool true);
                 ("data",
                  JDict [("tables", JDict [("TASK", JList (task_rows isoformat xer))]);
                         ("tableList", JList [JStr "TASK"]);
                         ("meta",
                          JDict [("fileType", JStr "xer");
                                 ("recordCount",
                                  JNum (Int (len (task_rows isoformat xer))));
                                 ("tableCount", JNum (Int 1));
                                 ("parsedAt", JStr parsedAt);
                                 ("parser", JStr "PyP6Xer v2.0")]);
                         ("dcma", json_of_result d)])], 200).
Proof.
  intro H.
  destruct (analyze_returns (DCMAAnalyzer.__init__ (analyzer_view xer)) analyzedAt)
    as [d Hd].
  exists d. split; [exact Hd|].
  unfold analyze_xer, analyze_result. cbn [and_then]. rewrite H. cbn [and_then].
  rewrite Hd. reflexivity.
Qed.

(** X14.  When the reader parses a schedule without any activity,
    [analyze_xer] still answers 200 with ['success']: the TASK table is
    empty, the record count is 0, and the error of the analyzer ("No
    activities found in XER file") is nested under ['dcma'], which has no
    ['metrics']. *)
Theorem analyze_xer_without_activities
        (bytes : string) (xer : Service.Reader) (analyzedAt parsedAt : string) :
  read bytes = Return xer ->
  Forall (fun p => Service.activities p = []) (Service.projects xer) ->
  let resp := analyze_xer read format_exc isoformat (Json (Return bytes))
                          analyzedAt parsedAt in
  snd resp = 200
  /\ path ["success"] (fst resp) = Some (JBool true)
  /\ path ["data"; "tables"; "TASK"] (fst resp) = Some (JList [])
  /\ path ["data"; "meta"; "recordCount"] (fst resp) = Some (JNum (Int 0))
  /\ path ["data"; "dcma"; "error"] (fst resp) = Some (JBool true)
  /\ path ["data"; "dcma"; "message"] (fst resp)
     = Some (JStr "No activities found in XER file")
  /\ path ["data"; "dcma"; "metrics"] (fst resp) = None.
Proof.
  intros H Hempty resp. subst resp.
  destruct (analyze_xer_parsed bytes xer analyzedAt parsedAt H) as [d [Hd ->]].
  assert (Hall : flat_map Service.activities (Service.projects xer) = []).
  { induction Hempty as [|p ps Hp _ IH]; cbn [flat_map]; [reflexivity|].
    now rewrite Hp, IH. }
  assert (Hrows : task_rows isoformat xer = []).
  { rewrite task_rows_eq.
    induction Hempty as [|p ps Hp _ IH]; cbn [flat_map]; [reflexivity|].
    cbn [flat_map] in Hall. rewrite Hp in *. cbn [firstn map app].
    apply IH. exact Hall. }
  unfold DCMAAnalyzer.analyze in Hd.
  rewrite analyzer_view_activities, Hall in Hd. cbn in Hd.
  injection Hd as <-. rewrite Hrows. repeat split.
Qed.


End EndpointFacts.

Section EndpointCases.

Import Service.

Lemma analyze_xer_without_activities_witness :
  let resp := analyze_xer (reading empty_reader) sample_format_exc
                          sample_isoformat (Json (Return "%T"))
                          "2024-01-01T00:00:00" "2024-01-01T00:00:01" in
  snd resp = 200
  /\ path ["success"] (fst resp) = Some (JBool true)
  /\ path ["data"; "tables"; "TASK"] (fst resp) = Some (JList [])
  /\ path ["data"; "meta"; "recordCount"] (fst resp) = Some (JNum (Int 0))
  /\ path ["data"; "dcma"; "error"] (fst resp) = Some (JBool true)
  /\ path ["data"; "dcma"; "message"] (fst resp)
     = Some (JStr "No activities found in XER file")
  /\ path ["data"; "dcma"; "metrics"] (fst resp) = None.
Proof.
  apply (analyze_xer_without_activities
           (reading empty_reader) sample_format_exc sample_isoformat
           "%T" empty_reader).
  - reflexivity.
  - repeat constructor.
Defined.


End EndpointCases.
